(** * Cosm_Backend: the query pipeline of [space_scraper.py] and [api.py]

    A shallow embedding of [SpaceInfoScraper.process_nlp],
    [calculate_relevance], [get_space_info] and [get_fallback_results]
    (src/space_scraper.py) and of the [/api/search] handler (src/api.py),
    followed by the properties of these functions.  Also embedded:
    [get_headers], [get_with_retry], the scrapers [scrape_spacex_info],
    [scrape_universe_today] and [scrape_nasa_homepage] on the page they are
    given, and the first steps of [scrape_google] and [scrape_space_facts].

    Modelling conventions.
    - A Python [str] is a [string] of 8-bit characters.  Case mapping and
      the character classes ([str.lower], [str.isalpha], [str.strip],
      [str.split], the regular expression [\w]) are the ASCII ones;
      characters above 127 are letters of no case, not white space.
    - A Python [int] is a [Z]; [len] is a [nat].
    - A dict literal iterated with [.items()] is an association list in
      insertion order; the set [seen_titles] is a [gset string].
    - What the scraper object reads from the outside world (the NLTK
      tokenizer, stop words and lemmatizer, and the ten network scrapers)
      are fields of [SpaceInfoScraper]; [None] stands for a raised
      exception. *)

From Stdlib Require Import ZArith Ascii String List Bool Lia Permutation Sorted.
From stdpp Require Import base decidable option list strings gmap sets sorting.

Local Open Scope string_scope.
Local Open Scope Z_scope.
Local Open Scope list_scope.

(** ** Python strings *)

Module PyStr.

(** [c.lower()] for one character: A-Z go to a-z. *)
Definition lower_char (c : ascii) : ascii :=
  let n := nat_of_ascii c in
  if (65 <=? n)%nat && (n <=? 90)%nat then ascii_of_nat (n + 32) else c.

(** [s.lower()] *)
Fixpoint lower (s : string) : string :=
  match s with
  | EmptyString => EmptyString
  | String c s' => String (lower_char c) (lower s')
  end.

Definition is_alpha_char (c : ascii) : bool :=
  let n := nat_of_ascii c in
  ((65 <=? n)%nat && (n <=? 90)%nat) || ((97 <=? n)%nat && (n <=? 122)%nat)
  || (128 <=? n)%nat.

Definition is_digit_char (c : ascii) : bool :=
  let n := nat_of_ascii c in (48 <=? n)%nat && (n <=? 57)%nat.

(** the class [\w] *)
Definition is_word_char (c : ascii) : bool :=
  is_alpha_char c || is_digit_char c || (nat_of_ascii c =? 95)%nat.

(** [c.isspace()]: tab, LF, VT, FF, CR, the separators 28-31, space. *)
Definition is_space_char (c : ascii) : bool :=
  let n := nat_of_ascii c in
  ((9 <=? n)%nat && (n <=? 13)%nat) || ((28 <=? n)%nat && (n <=? 32)%nat).

Fixpoint all_chars (p : ascii -> bool) (s : string) : bool :=
  match s with
  | EmptyString => true
  | String c s' => p c && all_chars p s'
  end.

(** [s.isalpha()]: at least one character, and all of them letters. *)
Definition isalpha (s : string) : bool :=
  match s with
  | EmptyString => false
  | _ => all_chars is_alpha_char s
  end.

(** [s.startswith(p)] *)
Fixpoint startswith (p s : string) : bool :=
  match p, s with
  | EmptyString, _ => true
  | String _ _, EmptyString => false
  | String a p', String b s' => Ascii.eqb a b && startswith p' s'
  end.

(** [sub in s] on strings: [sub] occurs in [s] as a contiguous block. *)
Fixpoint contains (sub s : string) : bool :=
  startswith sub s ||
  match s with
  | EmptyString => false
  | String _ s' => contains sub s'
  end.

(** What [contains] decides: [s] is some text, then [sub], then some
    text. *)
Definition occurs_in (sub s : string) : Prop :=
  exists pre post, s = pre +:+ sub +:+ post.

(** [s.lstrip()] and [s.strip()] *)
Fixpoint lstrip (s : string) : string :=
  match s with
  | EmptyString => EmptyString
  | String c s' => if is_space_char c then lstrip s' else s
  end.

Definition strip (s : string) : string :=
  String.rev (lstrip (String.rev (lstrip s))).

(** [s.split()]: the maximal runs of non-space characters.  [cur] is the
    run being read, reversed. *)
Fixpoint split_go (cur : string) (s : string) : list string :=
  match s with
  | EmptyString =>
      match cur with EmptyString => [] | _ => [String.rev cur] end
  | String c s' =>
      if is_space_char c then
        match cur with
        | EmptyString => split_go EmptyString s'
        | _ => String.rev cur :: split_go EmptyString s'
        end
      else split_go (String c cur) s'
  end.

Definition split (s : string) : list string := split_go EmptyString s.

(** [re.findall(r'\w+', s)]: the maximal runs of word characters. *)
Fixpoint findall_word_go (cur : string) (s : string) : list string :=
  match s with
  | EmptyString =>
      match cur with EmptyString => [] | _ => [String.rev cur] end
  | String c s' =>
      if is_word_char c then findall_word_go (String c cur) s'
      else
        match cur with
        | EmptyString => findall_word_go EmptyString s'
        | _ => String.rev cur :: findall_word_go EmptyString s'
        end
  end.

Definition findall_word (s : string) : list string :=
  findall_word_go EmptyString s.

(** [sep.join(l)] *)
Fixpoint join (sep : string) (l : list string) : string :=
  match l with
  | [] => EmptyString
  | [x] => x
  | x :: xs => x +:+ sep +:+ join sep xs
  end.

(** [x in l] on a list of strings *)
Definition in_list (x : string) (l : list string) : bool :=
  existsb (String.eqb x) l.

End PyStr.

(** ** Data model: the dicts the scraper passes around *)

(** The dict returned by [process_nlp]. *)
Record QueryInfo := mkQueryInfo {
  processed_query : string;
  original_query : string;
  intent : string;
  keywords : list string
}.

(** One result dict. *)
Record Article := mkArticle {
  title : string;
  link : string;
  description : string;
  source : string;
  relevance : Z
}.

(** ** [calculate_relevance] (space_scraper.py, 1146-1153) *)

(** The body of the [for keyword in keywords] loop, [score] threaded. *)
Fixpoint relevance_loop (text_lower : string) (keywords : list string)
    (score : Z) : Z :=
  match keywords with
  | [] => score
  | keyword :: rest =>
      if PyStr.contains keyword text_lower
      then relevance_loop text_lower rest (score + 1)
      else relevance_loop text_lower rest score
  end.

Definition calculate_relevance (text : string) (keywords : list string) : Z :=
  let text_lower := PyStr.lower text in
  relevance_loop text_lower keywords 0.

(** ** The scraper object *)

(** [self]: what a [SpaceInfoScraper] instance holds or reaches.
    [word_tokenize], [stop_words] and [lemmatizer] come from NLTK; the ten
    [scrape_*] methods fetch and parse pages of external sites, and their
    outcome depends on the network alone: each is a function from the
    analyzed query to its return value, [None] when it raises. *)
Record SpaceInfoScraper := mkScraper {
  word_tokenize : string -> option (list string);
  stop_words : gset string;
  lemmatizer : string -> option string;
  scrape_wikipedia : QueryInfo -> option (list Article);
  scrape_google : QueryInfo -> option (list Article);
  scrape_nasa_news : QueryInfo -> option (list Article);
  scrape_space_com : QueryInfo -> option (list Article);
  scrape_nasa_science : QueryInfo -> option (list Article);
  scrape_space_facts : QueryInfo -> option (list Article);
  scrape_astrogeology : QueryInfo -> option (list Article);
  scrape_spacex_info : QueryInfo -> option (list Article);
  scrape_nasa_homepage : QueryInfo -> option (list Article);
  scrape_universe_today : QueryInfo -> option (list Article)
}.

(** ** [simple_tokenize] and [process_nlp] (space_scraper.py, 39-47, 121-162) *)

(** NLTK's tokenizer first; when it raises, the words of the lowered text. *)
Definition simple_tokenize (self : SpaceInfoScraper) (text : string)
    : list string :=
  match word_tokenize self text with
  | Some tokens => tokens
  | None => PyStr.findall_word (PyStr.lower text)
  end.

(** The dict literal [space_keywords], in the order it is written. *)
Definition space_keywords : list (string * list string) :=
  [ ("nasa", ["nasa"; "space"; "mission"; "rocket"; "astronaut"]);
    ("mars", ["mars"; "red"; "planet"; "rover"; "perseverance"; "curiosity"]);
    ("moon", ["moon"; "lunar"; "apollo"; "artemis"]);
    ("iss", ["iss"; "international"; "space"; "station"]);
    ("spacex", ["spacex"; "falcon"; "dragon"; "elon"; "musk"]);
    ("satellite", ["satellite"; "orbit"; "gps"]);
    ("solar", ["solar"; "sun"; "system"; "planet"]);
    ("asteroid", ["asteroid"; "meteor"; "comet"]);
    ("hubble", ["hubble"; "telescope"; "image"; "webb"; "james"]);
    ("launch", ["launch"; "rocket"; "mission"]);
    ("galaxy", ["galaxy"; "milky"; "way"; "star"]);
    ("universe", ["universe"; "cosmos"; "big"; "bang"; "black"; "hole";
                  "quasar"]) ].

(** [any(keyword in lemmatized for keyword in keywords)] *)
Definition any_keyword_in (kws lemmatized : list string) : bool :=
  existsb (fun keyword => PyStr.in_list keyword lemmatized) kws.

(** The loop over [space_keywords.items()] with its [break]; [intent] is
    the variable assigned before the loop. *)
Fixpoint intent_loop (items : list (string * list string))
    (lemmatized : list string) (intent : string) : string :=
  match items with
  | [] => intent
  | (category, kws) :: rest =>
      if any_keyword_in kws lemmatized then category
      else intent_loop rest lemmatized intent
  end.

(** [[self.lemmatizer.lemmatize(word) for word in filtered_tokens]]: the
    comprehension raises as soon as one call does. *)
Fixpoint lemmatize_all (self : SpaceInfoScraper) (ws : list string)
    : option (list string) :=
  match ws with
  | [] => Some []
  | word :: rest =>
      match lemmatizer self word with
      | None => None
      | Some w =>
          match lemmatize_all self rest with
          | None => None
          | Some l => Some (w :: l)
          end
      end
  end.

Definition filtered_tokens (self : SpaceInfoScraper) (query : string)
    : list string :=
  let tokens := simple_tokenize self (PyStr.lower query) in
  List.filter
    (fun word => PyStr.isalpha word && bool_decide (word ∉ stop_words self))
    tokens.

Definition process_nlp (self : SpaceInfoScraper) (query : string)
    : option QueryInfo :=
  match lemmatize_all self (filtered_tokens self query) with
  | None => None
  | Some lemmatized =>
      let intent := intent_loop space_keywords lemmatized "general" in
      Some {| processed_query := PyStr.join " " lemmatized;
              original_query := query;
              intent := intent;
              keywords := lemmatized |}
  end.

(** ** [get_fallback_results] (space_scraper.py, 1270-1344) *)

Record FallbackData := mkFallbackData {
  data_title : string;
  data_description : string;
  data_link : string;
  data_source : string
}.

(** The dict literal [fallback_data], in the order it is written. *)
Definition fallback_data : list (string * FallbackData) :=
  [ ("mars",
     {| data_title := "Mars - The Red Planet";
        data_description := "Mars is the fourth planet from the Sun and is known as the Red Planet due to iron oxide on its surface. NASA has sent multiple rovers including Perseverance and Curiosity to explore Mars.";
        data_link := "https://mars.nasa.gov/";
        data_source := "Static Knowledge" |});
    ("moon",
     {| data_title := "Earth's Moon";
        data_description := "The Moon is Earth's only natural satellite. NASA's Apollo missions landed humans on the Moon, and the Artemis program aims to return astronauts to the lunar surface.";
        data_link := "https://moon.nasa.gov/";
        data_source := "Static Knowledge" |});
    ("black hole",
     {| data_title := "Black Holes";
        data_description := "Black holes are regions of spacetime where gravity is so strong that nothing can escape. The Event Horizon Telescope captured the first image of a black hole in 2019.";
        data_link := "https://www.nasa.gov/audience/forstudents/k-4/stories/nasa-knows/what-is-a-black-hole-k4.html";
        data_source := "Static Knowledge" |});
    ("spacex",
     {| data_title := "SpaceX";
        data_description := "SpaceX is a private aerospace company founded by Elon Musk. They develop reusable rockets and spacecraft, including the Falcon 9 rocket and Dragon capsule.";
        data_link := "https://www.spacex.com/";
        data_source := "Static Knowledge" |});
    ("iss",
     {| data_title := "International Space Station";
        data_description := "The ISS is a space station in low Earth orbit where astronauts conduct scientific research. It has been continuously occupied since 2000.";
        data_link := "https://www.nasa.gov/mission_pages/station/main/index.html";
        data_source := "Static Knowledge" |});
    ("hubble",
     {| data_title := "Hubble Space Telescope";
        data_description := "The Hubble Space Telescope has been observing the universe since 1990, providing stunning images and scientific discoveries about distant galaxies, nebulae, and planets.";
        data_link := "https://hubblesite.org/";
        data_source := "Static Knowledge" |});
    ("james webb",
     {| data_title := "James Webb Space Telescope";
        data_description := "The James Webb Space Telescope is the most powerful space telescope ever built, designed to observe the universe in infrared light and study the formation of the first galaxies.";
        data_link := "https://webb.nasa.gov/";
        data_source := "Static Knowledge" |}) ].

(** The test of line 1325:
    [key in query or intent in key or any(word in key for word in keywords)],
    all three [in] on strings. *)
Definition key_matches (key query intent : string) (keywords : list string)
    : bool :=
  PyStr.contains key query || PyStr.contains intent key
  || existsb (fun word => PyStr.contains word key) keywords.

Definition fallback_article (data : FallbackData) : Article :=
  {| title := data_title data;
     link := data_link data;
     description := data_description data;
     source := data_source data;
     relevance := 3 |}.

(** The loop over [fallback_data.items()], [results] threaded. *)
Fixpoint fallback_loop (items : list (string * FallbackData))
    (query intent : string) (keywords : list string)
    (results : list Article) : list Article :=
  match items with
  | [] => results
  | (key, data) :: rest =>
      if key_matches key query intent keywords
      then fallback_loop rest query intent keywords
             (results ++ [fallback_article data])
      else fallback_loop rest query intent keywords results
  end.

Definition general_space_article : Article :=
  {| title := "Space Exploration";
     description := "Space exploration involves the discovery and exploration of celestial structures in outer space by means of continuously evolving space technology. NASA, ESA, and other space agencies lead missions to study planets, moons, asteroids, and distant galaxies.";
     link := "https://www.nasa.gov/";
     source := "Static Knowledge";
     relevance := 2 |}.

Definition get_fallback_results (query_info : QueryInfo) : list Article :=
  let query := PyStr.lower (original_query query_info) in
  let intent := intent query_info in
  let results :=
    fallback_loop fallback_data query intent (keywords query_info) [] in
  match results with
  | [] => results ++ [general_space_article]
  | _ => results
  end.

(** ** [get_space_info] (space_scraper.py, 1155-1268) *)

(** One entry of the list [scrapers]. *)
Record Scraper := mkEntry {
  name : string;
  func : QueryInfo -> option (list Article);
  condition : bool
}.

(** The list [scrapers] of lines 1167-1189.  Every [condition] is computed
    when the list literal is evaluated; [all_results] is the accumulator as
    it is at that point of the method. *)
Definition scrapers (self : SpaceInfoScraper) (query_info : QueryInfo)
    (all_results : list Article) : list Scraper :=
  [ {| name := "Wikipedia"; func := scrape_wikipedia self;
       condition := true |};
    {| name := "Google"; func := scrape_google self; condition := true |};
    {| name := "NASA"; func := scrape_nasa_news self; condition := true |};
    {| name := "Space.com"; func := scrape_space_com self;
       condition := true |};
    {| name := "NASA Science"; func := scrape_nasa_science self;
       condition := PyStr.in_list (intent query_info)
                      ["solar"; "galaxy"; "universe"; "asteroid"] |};
    {| name := "Space Facts"; func := scrape_space_facts self;
       condition := PyStr.in_list (intent query_info)
                      ["solar"; "mars"; "moon"; "asteroid"] |};
    {| name := "USGS Astrogeology"; func := scrape_astrogeology self;
       condition := PyStr.in_list (intent query_info)
                      ["mars"; "moon"; "asteroid"] |};
    {| name := "SpaceX"; func := scrape_spacex_info self;
       condition := PyStr.in_list (intent query_info)
                      ["spacex"; "launch"; "rocket"] |};
    {| name := "NASA Homepage"; func := scrape_nasa_homepage self;
       condition := (length all_results <? 3)%nat |};
    {| name := "Universe Today"; func := scrape_universe_today self;
       condition := (length all_results <? 5)%nat |} ].

(** [d[k] = v] on an insertion-ordered dict. *)
Fixpoint dict_set {V : Type} (d : list (string * V)) (k : string) (v : V)
    : list (string * V) :=
  match d with
  | [] => [(k, v)]
  | (k', v') :: d' =>
      if String.eqb k' k then (k', v) :: d' else (k', v') :: dict_set d' k v
  end.

(** The variables the scraping loop updates, and the scrapers it has
    called so far ([attempted], one name per call of a [func]). *)
Record Gathered := mkGathered {
  all_results : list Article;
  source_results : list (string * list Article);
  attempted : list string
}.

(** The loop of lines 1196-1209: a scraper whose [condition] holds is
    called; what it returns is stored and appended, and when it raises the
    [except] clause goes on with the next one. *)
Fixpoint run_scrapers (l : list Scraper) (query_info : QueryInfo)
    (st : Gathered) : Gathered :=
  match l with
  | [] => st
  | scraper :: rest =>
      if condition scraper then
        let source_name := name scraper in
        match func scraper query_info with
        | Some results =>
            run_scrapers rest query_info
              {| all_results := all_results st ++ results;
                 source_results :=
                   dict_set (source_results st) source_name results;
                 attempted := attempted st ++ [source_name] |}
        | None =>
            run_scrapers rest query_info
              {| all_results := all_results st;
                 source_results := source_results st;
                 attempted := attempted st ++ [source_name] |}
        end
      else run_scrapers rest query_info st
  end.

(** Lines 1211-1219: the static knowledge base when nothing was found. *)
Definition with_fallback (query_info : QueryInfo) (st : Gathered)
    : Gathered :=
  match all_results st with
  | [] =>
      let fallback_results := get_fallback_results query_info in
      {| all_results := all_results st ++ fallback_results;
         source_results :=
           match fallback_results with
           | [] => source_results st
           | _ => dict_set (source_results st) "Static Knowledge"
                    fallback_results
           end;
         attempted := attempted st |}
  | _ => st
  end.

(** [sorted(l, key=lambda x: x['relevance'], reverse=True)].  Python's sort
    is stable, also with [reverse=True]: the result is in non-increasing
    order of relevance and results of equal relevance keep the order they
    have in [l].  [insert_by_relevance x l] puts [x] in front of the first
    element that is not more relevant than it. *)
Fixpoint insert_by_relevance (x : Article) (l : list Article)
    : list Article :=
  match l with
  | [] => [x]
  | y :: l' =>
      if relevance x <? relevance y then y :: insert_by_relevance x l'
      else x :: l
  end.

Fixpoint sorted_by_relevance (l : list Article) : list Article :=
  match l with
  | [] => []
  | x :: l' => insert_by_relevance x (sorted_by_relevance l')
  end.

(** The loop of lines 1225-1228 over the sorted results. *)
Fixpoint unique_loop (l : list Article) (unique_results : list Article)
    (seen_titles : gset string) : list Article :=
  match l with
  | [] => unique_results
  | result :: rest =>
      if bool_decide (title result ∉ seen_titles) then
        unique_loop rest (unique_results ++ [result])
          (seen_titles ∪ {[ title result ]})
      else unique_loop rest unique_results seen_titles
  end.

Definition unique_by_title (all_results : list Article) : list Article :=
  unique_loop (sorted_by_relevance all_results) [] ∅.

(** The dict [sources_info]. *)
Record SourcesInfo := mkSourcesInfo {
  sources_queried : list string;
  sources_with_results : list string;
  result_counts : list (string * nat)
}.

(** [if results] on a list *)
Definition nonempty {A : Type} (l : list A) : bool :=
  match l with [] => false | _ => true end.

Definition make_sources_info (source_results : list (string * list Article))
    : SourcesInfo :=
  let with_results := List.filter (fun sr => nonempty (snd sr)) source_results in
  {| sources_queried := map fst source_results;
     sources_with_results := map fst with_results;
     result_counts := map (fun sr => (fst sr, length (snd sr))) with_results |}.

(** What [get_space_info] returns.  The dict returned at lines 1244-1249
    has the four keys; the one returned from the [except] clause at lines
    1253-1268 has no ['sources_info'], which is [None] here. *)
Record Response := mkResponse {
  query_info : QueryInfo;
  results : list Article;
  total_found : nat;
  sources_info : option SourcesInfo
}.

(** [l[:10]] *)
Definition top10 {A : Type} (l : list A) : list A := take 10 l.

(** The accumulators as lines 1163-1164 initialise them. *)
Definition no_results_yet : Gathered :=
  {| all_results := []; source_results := []; attempted := [] |}.

(** The [try] block once [process_nlp] has returned.  The list [scrapers]
    is built from the accumulator as it is then, still empty.  The test of
    line 1192 on "scientific object" terms only writes a log line and is
    left out, as is all logging. *)
Definition aggregate (self : SpaceInfoScraper) (query_info : QueryInfo)
    : Gathered * Response :=
  let st :=
    run_scrapers (scrapers self query_info (all_results no_results_yet))
      query_info no_results_yet in
  let st := with_fallback query_info st in
  let unique_results := unique_by_title (all_results st) in
  (st,
   {| query_info := query_info;
      results := top10 unique_results;
      total_found := length unique_results;
      sources_info := Some (make_sources_info (source_results st)) |}).

(** The dict built in the [except] clause. *)
Definition error_response (query : string) : Response :=
  {| query_info :=
       {| original_query := query;
          processed_query := query;
          intent := "general";
          keywords := PyStr.split (PyStr.lower query) |};
     results :=
       [ {| title := "Cosmic Explorer Information";
            description := "We're having trouble processing your query. Our team is working on it. In the meantime, try one of our example queries!";
            source := "System";
            link := "#";
            relevance := 1 |} ];
     total_found := 1;
     sources_info := None |}.

(** [get_space_info] together with the names of the scrapers it called,
    in call order.  The only step of the [try] block that can raise is
    [process_nlp], through the lemmatizer: the scrapers' exceptions are
    caught inside the loop and the rest works on well-formed results. *)
Definition get_space_info_calls (self : SpaceInfoScraper) (query : string)
    : list string * Response :=
  match process_nlp self query with
  | Some query_info =>
      let '(st, response) := aggregate self query_info in
      (attempted st, response)
  | None => ([], error_response query)
  end.

Definition get_space_info (self : SpaceInfoScraper) (query : string)
    : Response :=
  snd (get_space_info_calls self query).

(** The results gathered from the scrapers and the knowledge base, before
    sorting ([all_results] at line 1221); none when [process_nlp] raised. *)
Definition gathered_results (self : SpaceInfoScraper) (query : string)
    : list Article :=
  match process_nlp self query with
  | Some query_info => all_results (fst (aggregate self query_info))
  | None => []
  end.

(** ** JSON view of a response ([jsonify] in api.py) *)

#[local] Set Warnings "-register-all".
Inductive json :=
| JString (s : string)
| JInt (z : Z)
| JList (l : list json)
| JObject (members : list (string * json)).

Definition article_json (a : Article) : json :=
  JObject [ ("title", JString (title a)); ("link", JString (link a));
            ("description", JString (description a));
            ("source", JString (source a)); ("relevance", JInt (relevance a)) ].

Definition query_info_json (q : QueryInfo) : json :=
  JObject [ ("processed_query", JString (processed_query q));
            ("original_query", JString (original_query q));
            ("intent", JString (intent q));
            ("keywords", JList (map JString (keywords q))) ].

Definition sources_info_json (s : SourcesInfo) : json :=
  JObject [ ("sources_queried", JList (map JString (sources_queried s)));
            ("sources_with_results",
             JList (map JString (sources_with_results s)));
            ("result_counts",
             JObject (map (fun c => (fst c, JInt (Z.of_nat (snd c))))
                          (result_counts s))) ].

(** The members of the returned dict; a key the dict lacks is no member. *)
Definition response_members (r : Response) : list (string * json) :=
  [ ("query_info", query_info_json (query_info r));
    ("results", JList (map article_json (results r)));
    ("total_found", JInt (Z.of_nat (total_found r))) ]
  ++ match sources_info r with
     | Some s => [ ("sources_info", sources_info_json s) ]
     | None => []
     end.

Definition response_json (r : Response) : json :=
  JObject (response_members r).

Definition response_fields (r : Response) : list string :=
  map fst (response_members r).

(** ** The [/api/search] handler (api.py, 34-54) *)

Inductive Body :=
| ErrorBody (error : string)
| ResultBody (r : Response).

(** What the handler answers: the scrapers called while it ran, the body
    and the HTTP status.  [data_query] is [data.get('query')], absent when
    the request has no such member.  [get_space_info] returns for every
    query, so the handler's own [except] clause (status 500) is not
    reached. *)
Definition search (self : SpaceInfoScraper) (data_query : option string)
    : list string * (Body * Z) :=
  let query := default "" data_query in
  if String.eqb (PyStr.strip query) "" then
    ([], (ErrorBody "Please provide a query", 400))
  else
    let '(calls, results) := get_space_info_calls self query in
    (calls, (ResultBody results, 200)).

(** ** Reference definitions, following the specification's wording *)

(** The scorer as the specification words it: the number of keywords,
    with multiplicity, that occur in the text when case is ignored. *)
Definition spec_case_insensitive_count (text : string)
    (keywords : list string) : Z :=
  Z.of_nat
    (length
       (List.filter
          (fun k => PyStr.contains (PyStr.lower k) (PyStr.lower text))
          keywords)).

(** The matching rule of the knowledge base as the specification words
    it: the key is a substring of the raw query, or it equals the intent,
    or one of its words is in the keyword list. *)
Definition spec_key_matches (key : string) (q : QueryInfo) : bool :=
  PyStr.contains key (original_query q)
  || String.eqb key (intent q)
  || existsb (fun w => PyStr.in_list w (keywords q)) (PyStr.split key).

Definition spec_fallback_results (q : QueryInfo) : list Article :=
  match List.filter (fun kd => spec_key_matches (fst kd) q) fallback_data with
  | [] => [general_space_article]
  | matches => map (fun kd => fallback_article (snd kd)) matches
  end.

(** The matching rule the code applies, on a whole analyzed query. *)
Definition code_key_matches (key : string) (q : QueryInfo) : bool :=
  key_matches key (PyStr.lower (original_query q)) (intent q) (keywords q).

(** A category's trigger keywords meet the processed keyword list. *)
Definition triggers (kws lemmatized : list string) : Prop :=
  exists k, In k kws /\ In k lemmatized.

(** [c] is the first category of [table], in its order, that triggers. *)
Definition first_triggered (table : list (string * list string))
    (lemmatized : list string) (c : string) : Prop :=
  exists pre kws post,
    table = pre ++ (c, kws) :: post /\ triggers kws lemmatized /\
    forall c' kws', In (c', kws') pre -> ~ triggers kws' lemmatized.

(** The intent the specification asks for. *)
Definition spec_intent (lemmatized : list string) (i : string) : Prop :=
  first_triggered space_keywords lemmatized i \/
  ((forall c kws, In (c, kws) space_keywords -> ~ triggers kws lemmatized) /\
   i = "general").

(** The query "hub" once analyzed. *)
Definition hub_query : QueryInfo :=
  {| processed_query := "hub"; original_query := "hub";
     intent := "general"; keywords := ["hub"] |}.

(** A string is white space only when each character is (the empty
    string included). *)
Definition whitespace_only (s : string) : bool :=
  PyStr.all_chars PyStr.is_space_char s.

(** Non-increasing relevance along a list: each result is at least as
    relevant as every result after it. *)
Definition at_least_as_relevant (a b : Article) : Prop :=
  relevance b <= relevance a.

Definition relevance_descending (l : list Article) : Prop :=
  StronglySorted at_least_as_relevant l.

(** [x] is the first result of [l] that carries its title. *)
Definition first_with_title (l : list Article) (x : Article) : Prop :=
  exists pre post,
    l = pre ++ x :: post /\ forall y, In y pre -> title y <> title x.

(** ** Sample scraper objects *)

Definition no_articles : QueryInfo -> option (list Article) :=
  fun _ => Some [].

(** NLTK's tokenizer is missing (the regular-expression split is used),
    no stop words, a lemmatizer that leaves each word as it is, and a
    network on which every scraper finds nothing. *)
Definition offline_scraper : SpaceInfoScraper :=
  {| word_tokenize := fun _ => None;
     stop_words := ∅;
     lemmatizer := fun w => Some w;
     scrape_wikipedia := no_articles;
     scrape_google := no_articles;
     scrape_nasa_news := no_articles;
     scrape_space_com := no_articles;
     scrape_nasa_science := no_articles;
     scrape_space_facts := no_articles;
     scrape_astrogeology := no_articles;
     scrape_spacex_info := no_articles;
     scrape_nasa_homepage := no_articles;
     scrape_universe_today := no_articles |}.

(** The same, with a lemmatizer that raises on every word (WordNet's data
    is not installed). *)
Definition no_wordnet_scraper : SpaceInfoScraper :=
  {| word_tokenize := fun _ => None;
     stop_words := ∅;
     lemmatizer := fun _ => None;
     scrape_wikipedia := no_articles;
     scrape_google := no_articles;
     scrape_nasa_news := no_articles;
     scrape_space_com := no_articles;
     scrape_nasa_science := no_articles;
     scrape_space_facts := no_articles;
     scrape_astrogeology := no_articles;
     scrape_spacex_info := no_articles;
     scrape_nasa_homepage := no_articles;
     scrape_universe_today := no_articles |}.

Definition webb (src : string) (rel : Z) : Article :=
  {| title := "James Webb Space Telescope"; link := "https://webb.nasa.gov/";
     description := "The telescope"; source := src; relevance := rel |}.

(** Two scrapers return an article of the same title, of relevance 4 and
    7; the others find nothing. *)
Definition webb_scraper : SpaceInfoScraper :=
  {| word_tokenize := fun _ => None;
     stop_words := ∅;
     lemmatizer := fun w => Some w;
     scrape_wikipedia := fun _ => Some [webb "Wikipedia" 4];
     scrape_google := no_articles;
     scrape_nasa_news := fun _ => Some [webb "NASA" 7];
     scrape_space_com := fun _ => None;
     scrape_nasa_science := no_articles;
     scrape_space_facts := no_articles;
     scrape_astrogeology := no_articles;
     scrape_spacex_info := no_articles;
     scrape_nasa_homepage := no_articles;
     scrape_universe_today := no_articles |}.

(** ** [get_headers] and [get_with_retry] (space_scraper.py, 76-119) *)

(** [self.headers] and [self.user_agents], as [__init__] sets them. *)
Definition headers : list (string * string) :=
  [ ("User-Agent", "Mozilla/5.0 (Windows NT 10.0; Win64; x64) AppleWebKit/537.36 (KHTML, like Gecko) Chrome/120.0.0.0 Safari/537.36");
    ("Accept", "text/html,application/xhtml+xml,application/xml;q=0.9,image/avif,image/webp,*/*;q=0.8");
    ("Accept-Language", "en-US,en;q=0.5");
    ("Connection", "keep-alive");
    ("Upgrade-Insecure-Requests", "1");
    ("Sec-Fetch-Dest", "document");
    ("Sec-Fetch-Mode", "navigate");
    ("Sec-Fetch-Site", "none");
    ("Sec-Fetch-User", "?1");
    ("Cache-Control", "max-age=0") ].

Definition user_agents : list string :=
  [ "Mozilla/5.0 (Windows NT 10.0; Win64; x64) AppleWebKit/537.36 (KHTML, like Gecko) Chrome/120.0.0.0 Safari/537.36";
    "Mozilla/5.0 (Macintosh; Intel Mac OS X 10_15_7) AppleWebKit/605.1.15 (KHTML, like Gecko) Version/17.0 Safari/605.1.15";
    "Mozilla/5.0 (Windows NT 10.0; Win64; x64; rv:120.0) Gecko/20100101 Firefox/120.0";
    "Mozilla/5.0 (X11; Linux x86_64) AppleWebKit/537.36 (KHTML, like Gecko) Chrome/119.0.0.0 Safari/537.36";
    "Mozilla/5.0 (Windows NT 10.0; Win64; x64) AppleWebKit/537.36 (KHTML, like Gecko) Edge/120.0.0.0 Safari/537.36" ].

(** [d.get(k)] on an insertion-ordered dict. *)
Fixpoint dict_get {V : Type} (d : list (string * V)) (k : string)
    : option V :=
  match d with
  | [] => None
  | (k', v) :: d' => if String.eqb k' k then Some v else dict_get d' k
  end.

(** [random.choice(l)] on a list that is not empty; [draw] is the number
    the generator gives. *)
Definition random_choice (l : list string) (draw : nat) : string :=
  nth (draw mod length l) l "".

(** [get_headers(site)]; [site] is [None] when the argument is left out. *)
Definition get_headers (draw : nat) (site : option string)
    : list (string * string) :=
  let hs := dict_set headers "User-Agent" (random_choice user_agents draw) in
  match site with
  | None => hs
  | Some site =>
      if String.eqb site "google" then
        dict_set hs "Referer" "https://www.google.com/"
      else if String.eqb site "nasa" then
        dict_set hs "Referer" "https://www.nasa.gov/"
      else if String.eqb site "wikipedia" then
        dict_set hs "Referer" "https://www.wikipedia.org/"
      else hs
  end.

(** What [get_with_retry] looks at in a response. *)
Record HttpResponse := mkHttpResponse {
  status_code : Z;
  text : string
}.

(** The test of line 108: a CAPTCHA page, or a 200 with a short body. *)
Definition possible_blocking (response : HttpResponse) : bool :=
  PyStr.contains "captcha" (PyStr.lower (text response))
  || ((status_code response =? 200)
      && (String.length (text response) <? 1000)%nat).

(** The [while retries < max_retries] loop.  [requests_get i] is what the
    call of [requests.get] made after [i] failed attempts gives, [None]
    when it raises; [left] is [max_retries - retries].  The result comes
    with the number of requests made. *)
Fixpoint retry_loop (requests_get : nat -> option HttpResponse)
    (left retries : nat) : option HttpResponse * nat :=
  match left with
  | O => (None, retries)
  | S left' =>
      match requests_get retries with
      | Some response =>
          if possible_blocking response
          then retry_loop requests_get left' (S retries)
          else (Some response, S retries)
      | None => retry_loop requests_get left' (S retries)
      end
  end.

Definition get_with_retry (requests_get : nat -> option HttpResponse)
    (max_retries : Z) : option HttpResponse * nat :=
  retry_loop requests_get (Z.to_nat max_retries) 0.

(** An attempt that makes the loop go round again. *)
Definition attempt_fails (o : option HttpResponse) : Prop :=
  match o with
  | None => True
  | Some response => possible_blocking response = true
  end.

(** ** Three scrapers, on the page they are given

    [scrape_spacex_info], [scrape_universe_today] and
    [scrape_nasa_homepage] (space_scraper.py, 574-740) make one request and
    read the parsed page through [find], [find_all] and [select].  What
    these calls return is the input here: an element is the record of the
    lookups the scraper makes in it, a text is what [get_text()] gives, and
    [None] as the page means that the request or the parser raised. *)

Module Adapters.

(** [a or b] on values that are [None] or an element. *)
Definition or_else {A : Type} (a b : option A) : option A :=
  match a with Some _ => a | None => b end.

(** [a or b] on lists. *)
Definition or_list {A : Type} (a b : list A) : list A :=
  match a with [] => b | _ => a end.

(** An [<a>] element: its [href] attribute, if it has one. *)
Record Anchor := mkAnchor { href : option string }.

(** A [<section>] of the SpaceX page. *)
Record SectionElem := mkSection {
  section_h1 : option string;
  section_h2 : option string;
  section_h3 : option string;
  section_p : option string
}.

(** An [<article>] or content block: its first heading among h1-h4, its
    first link, its first [<p class="excerpt">] and its first [<p>]. *)
Record BlockElem := mkBlock {
  block_heading : option string;
  block_a : option Anchor;
  block_p_excerpt : option string;
  block_p : option string
}.

(** The body of the loop of [scrape_spacex_info] for one section. *)
Definition spacex_section (keywords : list string) (section : SectionElem)
    : list Article :=
  let title_elem :=
    or_else (section_h1 section)
      (or_else (section_h2 section) (section_h3 section)) in
  match title_elem with
  | None => []
  | Some title_text =>
      let title := PyStr.strip title_text in
      let description :=
        match section_p section with
        | Some t => PyStr.strip t
        | None => ""
        end in
      if negb (String.eqb title "") && (5 <? String.length title)%nat then
        [ {| title := title;
             link := "https://www.spacex.com/";
             description := description;
             source := "SpaceX";
             relevance :=
               calculate_relevance (title +:+ " " +:+ description) keywords |} ]
      else []
  end.

(** [scrape_spacex_info]; [sections] is [soup.find_all('section')]. *)
Definition scrape_spacex_info (sections : option (list SectionElem))
    (query_info : QueryInfo) : list Article :=
  match sections with
  | None => []
  | Some sections =>
      sorted_by_relevance
        (flat_map (spacex_section (keywords query_info)) (take 3 sections))
  end.

(** The page of Universe Today: the status of the response,
    [soup.find_all('article', class_='post')] and
    [soup.find_all('article')]. *)
Record UniverseTodayPage := mkUniverseTodayPage {
  ut_status : Z;
  ut_articles_post : list BlockElem;
  ut_articles : list BlockElem
}.

Definition universe_today_article (keywords : list string)
    (article : BlockElem) : list Article :=
  let desc_elem := or_else (block_p_excerpt article) (block_p article) in
  match block_heading article, block_a article with
  | Some title_text, Some link_elem =>
      let title := PyStr.strip title_text in
      let link := default "" (href link_elem) in
      let link :=
        if negb (PyStr.startswith "http" link)
        then "https://www.universetoday.com" +:+ link else link in
      let description :=
        match desc_elem with
        | Some t => PyStr.strip t
        | None => "Visit Universe Today for more information on this space-related topic."
        end in
      [ {| title := title;
           link := link;
           description := description;
           source := "Universe Today";
           relevance :=
             calculate_relevance (title +:+ " " +:+ description) keywords |} ]
  | _, _ => []
  end.

Definition scrape_universe_today (page : option UniverseTodayPage)
    (query_info : QueryInfo) : list Article :=
  match page with
  | None => []
  | Some page =>
      if negb (ut_status page =? 200) then []
      else
        let article_elements :=
          match ut_articles_post page with
          | [] => ut_articles page
          | found => found
          end in
        sorted_by_relevance
          (flat_map (universe_today_article (keywords query_info))
             (take 5 article_elements))
  end.

(** The NASA home page: the status, [soup.find_all('article')],
    [soup.select('.ubernode')] and [soup.select('.grid-item')]. *)
Record NasaHomepage := mkNasaHomepage {
  nasa_status : Z;
  nasa_articles : list BlockElem;
  nasa_ubernode : list BlockElem;
  nasa_grid_item : list BlockElem
}.

Definition nasa_homepage_block (keywords : list string) (block : BlockElem)
    : list Article :=
  match block_heading block with
  | None => []
  | Some title_text =>
      let title := PyStr.strip title_text in
      let link :=
        match block_a block with
        | Some link_elem => default "" (href link_elem)
        | None => "https://www.nasa.gov/"
        end in
      let link :=
        if PyStr.startswith "/" link then "https://www.nasa.gov" +:+ link
        else if negb (PyStr.startswith "http" link)
             then "https://www.nasa.gov/" +:+ link
             else link in
      let description :=
        match block_p block with
        | Some t => PyStr.strip t
        | None => "Visit NASA for the latest space news and information."
        end in
      [ {| title := title;
           link := link;
           description := description;
           source := "NASA";
           relevance :=
             calculate_relevance (title +:+ " " +:+ description) keywords |} ]
  end.

Definition scrape_nasa_homepage (page : option NasaHomepage)
    (query_info : QueryInfo) : list Article :=
  match page with
  | None => []
  | Some page =>
      if negb (nasa_status page =? 200) then []
      else
        let content_blocks :=
          or_list (nasa_articles page)
            (or_list (nasa_ubernode page) (nasa_grid_item page)) in
        sorted_by_relevance
          (flat_map (nasa_homepage_block (keywords query_info))
             (take 3 content_blocks))
  end.

End Adapters.

(** ** The first steps of two more scrapers

    [scrape_google] and [scrape_space_facts] compute what to ask for from
    the analyzed query alone (space_scraper.py, 746-749 and 938-968),
    before any request is made. *)

(** The search terms of [scrape_google]. *)
Definition google_search_terms (query_info : QueryInfo) : string :=
  let search_terms := original_query query_info in
  if negb (existsb
             (fun term => PyStr.contains term (PyStr.lower search_terms))
             ["space"; "nasa"; "astronomy"; "cosmos"; "universe"])
  then search_terms +:+ " space astronomy"
  else search_terms.

Definition base_url : string := "https://space-facts.com/".

(** The dict literal [topic_urls], in the order it is written. *)
Definition topic_urls : list (string * string) :=
  [ ("mars", "mars/"); ("earth", "earth/"); ("moon", "moon/");
    ("sun", "sun/"); ("mercury", "mercury/"); ("venus", "venus/");
    ("jupiter", "jupiter/"); ("saturn", "saturn/"); ("uranus", "uranus/");
    ("neptune", "neptune/"); ("pluto", "pluto/"); ("planet", "planets/");
    ("solar system", "solar-system/"); ("space", "") ].

(** [sum(1 for keyword in keywords if keyword in topic.split())] *)
Definition topic_matches (keywords : list string) (topic : string) : nat :=
  length (List.filter
            (fun keyword => PyStr.in_list keyword (PyStr.split topic))
            keywords).

(** The three variables of the loop of lines 963-968. *)
Record TopicChoice := mkTopicChoice {
  page_url : string;
  max_matches : nat;
  chosen_topic : string
}.

Fixpoint topic_loop (items : list (string * string))
    (keywords : list string) (st : TopicChoice) : TopicChoice :=
  match items with
  | [] => st
  | (topic, path) :: rest =>
      let matches := topic_matches keywords topic in
      if (max_matches st <? matches)%nat then
        topic_loop rest keywords
          {| page_url := base_url +:+ path;
             max_matches := matches;
             chosen_topic := topic |}
      else topic_loop rest keywords st
  end.

(** The page [scrape_space_facts] asks for. *)
Definition space_facts_topic (query_info : QueryInfo) : TopicChoice :=
  topic_loop topic_urls (keywords query_info)
    {| page_url := base_url; max_matches := 0; chosen_topic := "space" |}.

(** ** Further notions used in the properties *)

(** What a call of a scraper adds to [all_results]: what it returns, and
    nothing when it raises. *)
Definition contribution (query_info : QueryInfo) (s : Scraper)
    : list Article :=
  default [] (func s query_info).

(** What a call of a scraper adds to [source_results]: an entry under
    its name when it returns, nothing when it raises. *)
Definition stored (query_info : QueryInfo) (s : Scraper)
    : list (string * list Article) :=
  match func s query_info with
  | Some results => [(name s, results)]
  | None => []
  end.

(** The entries of [scrapers] whose condition holds, and what their calls
    return in all. *)
Definition enabled_scrapers (self : SpaceInfoScraper) (query_info : QueryInfo)
    : list Scraper :=
  List.filter condition
    (scrapers self query_info (all_results no_results_yet)).

Definition scraped (self : SpaceInfoScraper) (query_info : QueryInfo)
    : list Article :=
  flat_map (contribution query_info) (enabled_scrapers self query_info).

(** The scraper object whose scrapers return the empty list where those
    of [self] raise. *)
Definition without_failures (self : SpaceInfoScraper) : SpaceInfoScraper :=
  let quiet (f : QueryInfo -> option (list Article)) :=
    fun q => Some (default [] (f q)) in
  {| word_tokenize := word_tokenize self;
     stop_words := stop_words self;
     lemmatizer := lemmatizer self;
     scrape_wikipedia := quiet (scrape_wikipedia self);
     scrape_google := quiet (scrape_google self);
     scrape_nasa_news := quiet (scrape_nasa_news self);
     scrape_space_com := quiet (scrape_space_com self);
     scrape_nasa_science := quiet (scrape_nasa_science self);
     scrape_space_facts := quiet (scrape_space_facts self);
     scrape_astrogeology := quiet (scrape_astrogeology self);
     scrape_spacex_info := quiet (scrape_spacex_info self);
     scrape_nasa_homepage := quiet (scrape_nasa_homepage self);
     scrape_universe_today := quiet (scrape_universe_today self) |}.

(** [s'] has the name and condition of [s], and a function that returns
    what the one of [s] contributes. *)
Definition quieted (q : QueryInfo) (s s' : Scraper) : Prop :=
  name s' = name s /\ condition s' = condition s /\
  func s' q = Some (contribution q s).

(** A well-scored result: the relevance is the score of title, space and
    description, so it lies between 0 and the number of keywords. *)
Definition scored (q : QueryInfo) (a : Article) : Prop :=
  relevance a =
    calculate_relevance (title a +:+ " " +:+ description a) (keywords q) /\
  0 <= relevance a <= Z.of_nat (length (keywords q)).

(** A blank query once analyzed: no keyword and the intent "general". *)
Definition blank_query_info (query : string) : QueryInfo :=
  {| processed_query := ""; original_query := query;
     intent := "general"; keywords := [] |}.

(** The sum of the counts of [result_counts]. *)
Definition counted (counts : list (string * nat)) : nat :=
  fold_right (fun c n => (snd c + n)%nat) 0%nat counts.

(** The titles a list of results carries, as a set. *)
Definition titles (l : list Article) : gset string :=
  list_to_set (map title l).

(** A scraper object whose Wikipedia scraper finds one article and whose
    Google scraper raises. *)
Definition wikipedia_only_scraper : SpaceInfoScraper :=
  {| word_tokenize := fun _ => None;
     stop_words := ∅;
     lemmatizer := fun w => Some w;
     scrape_wikipedia := fun _ => Some [webb "Wikipedia" 4];
     scrape_google := fun _ => None;
     scrape_nasa_news := no_articles;
     scrape_space_com := no_articles;
     scrape_nasa_science := no_articles;
     scrape_space_facts := no_articles;
     scrape_astrogeology := no_articles;
     scrape_spacex_info := no_articles;
     scrape_nasa_homepage := no_articles;
     scrape_universe_today := no_articles |}.

(** The query "mars" once analyzed. *)
Definition mars_query : QueryInfo :=
  {| processed_query := "mars"; original_query := "mars";
     intent := "mars"; keywords := ["mars"] |}.

(** A query that names black holes, once analyzed. *)
Definition black_hole_query : QueryInfo :=
  {| processed_query := "big black hole";
     original_query := "How big is a Black Hole?";
     intent := "universe";
     keywords := ["big"; "black"; "hole"] |}.

(** Eleven articles titled "A" to "K", of relevance 0 to 10, and a
    scraper object whose Wikipedia scraper finds them. *)
Definition lettered (n : nat) : Article :=
  {| title := String (ascii_of_nat (65 + n)) "";
     link := "https://en.wikipedia.org/"; description := "An article";
     source := "Wikipedia"; relevance := Z.of_nat n |}.

Definition crowded_scraper : SpaceInfoScraper :=
  {| word_tokenize := fun _ => None;
     stop_words := ∅;
     lemmatizer := fun w => Some w;
     scrape_wikipedia := fun _ => Some (map lettered (seq 0 11));
     scrape_google := no_articles;
     scrape_nasa_news := no_articles;
     scrape_space_com := no_articles;
     scrape_nasa_science := no_articles;
     scrape_space_facts := no_articles;
     scrape_astrogeology := no_articles;
     scrape_spacex_info := no_articles;
     scrape_nasa_homepage := no_articles;
     scrape_universe_today := no_articles |}.

(** A server that answers a short CAPTCHA page, then raises, then gives a
    404 page. *)
Definition flaky_server (i : nat) : option HttpResponse :=
  match i with
  | O => Some {| status_code := 200; text := "Please solve this CAPTCHA" |}
  | S O => None
  | _ => Some {| status_code := 404; text := "Not Found" |}
  end.

(** * Properties *)

(** ** Strings *)

Module PyStrFacts.
Import PyStr.

Lemma startswith_spec p s :
  startswith p s = true <-> exists post, s = p +:+ post.
Proof.
  revert s; induction p as [|a p IH]; intros s; simpl.
  - split; [intros _; by exists s | done].
  - destruct s as [|b s].
    + split; [done | intros [post H]; discriminate H].
    + rewrite andb_true_iff, Ascii.eqb_eq, IH. split.
      * intros [-> [post ->]]. by exists post.
      * intros [post H]. injection H as -> ->. eauto.
Qed.

Lemma contains_spec sub s : contains sub s = true <-> occurs_in sub s.
Proof.
  induction s as [|c s IH]; simpl contains.
  - rewrite orb_false_r, startswith_spec. split.
    + intros [post H]. by exists "", post.
    + intros [[|? pre] [post H]]; [by exists post | discriminate H].
  - rewrite orb_true_iff, startswith_spec, IH. split.
    + intros [[post H] | [pre [post H]]].
      * by exists "", post.
      * exists (String c pre), post. by rewrite H.
    + intros [[|c' pre] [post H]].
      * left. by exists post.
      * right. injection H as _ H. by exists pre, post.
Qed.

Lemma contains_empty_text sub : contains sub "" = true -> sub = "".
Proof. by destruct sub. Qed.

Lemma lstrip_whitespace s : all_chars is_space_char s = true -> lstrip s = "".
Proof.
  induction s as [|c s IH]; simpl; [done |].
  intros [Hc Hs]%andb_true_iff. rewrite Hc. by apply IH.
Qed.

Lemma strip_whitespace s : all_chars is_space_char s = true -> strip s = "".
Proof. intros H. unfold strip. by rewrite (lstrip_whitespace s H). Qed.

End PyStrFacts.

(** ** The relevance scorer *)

Section Relevance.
Variable text : string.

Lemma relevance_loop_shift (t : string) (kws : list string) (score : Z) :
  relevance_loop t kws score = score + relevance_loop t kws 0.
Proof.
  revert score; induction kws as [|k kws IH]; intros score; simpl.
  - lia.
  - destruct (PyStr.contains k t).
    + rewrite (IH (score + 1)), (IH (0 + 1)). lia.
    + apply IH.
Qed.

(** The score counts the keywords found in the lowered text. *)
Lemma calculate_relevance_count (kws : list string) :
  calculate_relevance text kws =
  Z.of_nat (length (List.filter
                      (fun k => PyStr.contains k (PyStr.lower text)) kws)).
Proof.
  unfold calculate_relevance.
  induction kws as [|k kws IH]; simpl; [done |].
  rewrite relevance_loop_shift.
  destruct (PyStr.contains k (PyStr.lower text)); simpl length; lia.
Qed.

Lemma calculate_relevance_app (kws1 kws2 : list string) :
  calculate_relevance text (kws1 ++ kws2) =
  calculate_relevance text kws1 + calculate_relevance text kws2.
Proof.
  rewrite !calculate_relevance_count, List.filter_app, length_app. lia.
Qed.

Lemma calculate_relevance_bounds (kws : list string) :
  0 <= calculate_relevance text kws <= Z.of_nat (length kws).
Proof.
  rewrite calculate_relevance_count.
  pose proof (List.filter_length_le
                (fun k => PyStr.contains k (PyStr.lower text)) kws).
  lia.
Qed.

End Relevance.

(** C7, as the code has it.  For every text and every keyword list whose
    keywords are in lower case already, [calculate_relevance] is the
    case-insensitive substring count: the number of keywords, counted with
    multiplicity, that occur in the text when case is ignored.  (The code
    lowers the text and leaves the keywords as they are.) *)
Theorem calculate_relevance_case_insensitive
    (text : string) (kws : list string) :
  Forall (fun k => PyStr.lower k = k) kws ->
  calculate_relevance text kws = spec_case_insensitive_count text kws.
Proof.
  intros Hlow. rewrite calculate_relevance_count.
  unfold spec_case_insensitive_count. do 2 f_equal.
  induction Hlow as [|k kws Hk _ IH]; simpl; [done |].
  rewrite Hk, IH. done.
Qed.

Lemma calculate_relevance_case_insensitive_witness :
  Forall (fun k => PyStr.lower k = k) ["mars"; "nasa"; "rover"; "venus"] /\
  calculate_relevance "NASA Mars rover mission to explore the red planet"
    ["mars"; "nasa"; "rover"; "venus"] = 3.
Proof.
  split.
  - repeat constructor.
  - rewrite (calculate_relevance_case_insensitive
               "NASA Mars rover mission to explore the red planet"
               ["mars"; "nasa"; "rover"; "venus"]).
    + vm_compute. reflexivity.
    + repeat constructor.
Defined.

(** C7 as stated fails on a keyword with a capital: "Mars" occurs in the
    text "Mars", yet the score is 0. *)
Lemma calculate_relevance_capital_keyword :
  PyStr.contains "Mars" "Mars" = true /\
  calculate_relevance "Mars" ["Mars"] = 0 /\
  calculate_relevance "Mars" ["Mars"] <>
  spec_case_insensitive_count "Mars" ["Mars"].
Proof. vm_compute. split; [done | split; [done | discriminate]]. Qed.

(** C8, as the code has it.  [calculate_relevance text [] = 0] for every
    text, and [calculate_relevance "" keywords = 0] for every keyword list
    that does not hold the empty string. *)
Theorem calculate_relevance_zero (text : string) (kws : list string) :
  calculate_relevance text [] = 0 /\
  (Forall (fun k => k <> "") kws -> calculate_relevance "" kws = 0).
Proof.
  split; [done |].
  intros Hne. rewrite calculate_relevance_count. simpl PyStr.lower.
  induction Hne as [|k kws Hk _ IH]; cbn [List.filter]; [done |].
  destruct (PyStr.contains k "") eqn:E; [| exact IH].
  by apply PyStrFacts.contains_empty_text in E.
Qed.

Lemma calculate_relevance_zero_witness :
  Forall (fun k => k <> "") ["mars"; "rover"] /\
  calculate_relevance "" ["mars"; "rover"] = 0.
Proof.
  assert (H : Forall (fun k : string => k <> "") ["mars"; "rover"])
    by (repeat constructor; discriminate).
  split; [exact H |].
  exact (proj2 (calculate_relevance_zero "any text" ["mars"; "rover"]) H).
Defined.

(** C8 as stated fails on the keyword list [[""]]: the empty string is a
    substring of the empty text. *)
Lemma calculate_relevance_empty_keyword :
  calculate_relevance "" [""] = 1 /\ calculate_relevance "" [""] <> 0.
Proof. vm_compute. split; [done | discriminate]. Qed.

(** C10.  The score lies between 0 and the number of keywords, and
    appending a keyword to the list never decreases it. *)
Theorem calculate_relevance_bounded_monotone
    (text : string) (kws : list string) :
  0 <= calculate_relevance text kws <= Z.of_nat (length kws) /\
  forall k, calculate_relevance text kws <=
            calculate_relevance text (kws ++ [k]).
Proof.
  split; [apply calculate_relevance_bounds |].
  intros k. rewrite calculate_relevance_app.
  pose proof (calculate_relevance_bounds text [k]). lia.
Qed.

(** ** The query analyzer *)

Section Intent.
Variable lemmatized : list string.

Lemma in_list_In (x : string) (l : list string) :
  PyStr.in_list x l = true <-> In x l.
Proof.
  unfold PyStr.in_list. rewrite existsb_exists. split.
  - intros [y [Hy ->%String.eqb_eq]]. exact Hy.
  - intros H. exists x. by rewrite String.eqb_refl.
Qed.

Lemma any_keyword_in_triggers (kws : list string) :
  any_keyword_in kws lemmatized = true <-> triggers kws lemmatized.
Proof.
  unfold any_keyword_in, triggers. rewrite existsb_exists.
  by setoid_rewrite in_list_In.
Qed.

(** The loop stops at the first category that triggers, and leaves the
    initial value when none does. *)
Lemma intent_loop_first (table : list (string * list string)) (d : string) :
  first_triggered table lemmatized (intent_loop table lemmatized d) \/
  ((forall c kws, In (c, kws) table -> ~ triggers kws lemmatized) /\
   intent_loop table lemmatized d = d).
Proof.
  induction table as [|[c kws] table IH]; simpl.
  - right. split; [intros ? ? [] | done].
  - destruct (any_keyword_in kws lemmatized) eqn:E.
    + left. exists [], kws, table. split; [done |].
      split; [by apply any_keyword_in_triggers | intros ? ? []].
    + assert (Hno : ~ triggers kws lemmatized).
      { rewrite <- any_keyword_in_triggers, E. discriminate. }
      destruct IH as [(pre & kws' & post & Htab & Ht & Hpre) | [Hall Heq]].
      * left. exists ((c, kws) :: pre), kws', post.
        split; [simpl; f_equal; exact Htab | split; [done |]].
        intros c' k' [[= <- <-] | Hin]; [done | eauto].
      * right. split; [| done].
        intros c' k' [[= <- <-] | Hin]; [done | eauto].
Qed.

End Intent.

(** C6.  Whenever NLTK's lemmatizer returns on the query's tokens,
    [process_nlp] returns; its keyword list is the lemmatized tokens and its
    intent is the first category, in the order of [space_keywords], whose
    trigger keywords meet that list, or "general" when no category's do; a
    second call on the same query gives the same intent and keywords. *)
Theorem process_nlp_intent
    (self : SpaceInfoScraper) (query : string) (lemmatized : list string) :
  lemmatize_all self (filtered_tokens self query) = Some lemmatized ->
  exists q,
    process_nlp self query = Some q /\
    keywords q = lemmatized /\
    spec_intent (keywords q) (intent q) /\
    forall q', process_nlp self query = Some q' ->
               intent q' = intent q /\ keywords q' = keywords q.
Proof.
  intros Hlem. unfold process_nlp. rewrite Hlem.
  eexists. split; [reflexivity |]. cbn [keywords intent].
  split; [done |]. split.
  - apply intent_loop_first.
  - by intros q' [= <-].
Qed.

Lemma process_nlp_intent_witness :
  lemmatize_all offline_scraper
    (filtered_tokens offline_scraper "Hubble images of Mars") =
  Some ["hubble"; "images"; "of"; "mars"] /\
  exists q,
    process_nlp offline_scraper "Hubble images of Mars" = Some q /\
    keywords q = ["hubble"; "images"; "of"; "mars"] /\ intent q = "mars".
Proof.
  split; [reflexivity |].
  destruct (process_nlp_intent offline_scraper "Hubble images of Mars"
              ["hubble"; "images"; "of"; "mars"] eq_refl)
    as (q & Hq & Hk & _ & _).
  exists q. split; [exact Hq |]. split; [exact Hk |].
  vm_compute in Hq. by injection Hq as <-.
Defined.

(** ** The knowledge base *)

Section Fallback.
Variables (query intent : string) (keywords : list string).

(** The loop appends the articles of the matching keys, in table order. *)
Lemma fallback_loop_filter (items : list (string * FallbackData))
    (acc : list Article) :
  fallback_loop items query intent keywords acc =
  acc ++ map (fun kd => fallback_article (snd kd))
             (List.filter
                (fun kd => key_matches (fst kd) query intent keywords)
                items).
Proof.
  revert acc; induction items as [|[key data] items IH]; intros acc; simpl.
  - by rewrite app_nil_r.
  - destruct (key_matches key query intent keywords); simpl.
    + by rewrite IH, <- app_assoc.
    + apply IH.
Qed.

End Fallback.

Lemma fallback_relevance (l : list (string * FallbackData)) :
  Forall (fun a => relevance a = 3)
         (map (fun kd => fallback_article (snd kd)) l).
Proof. induction l; simpl; by constructor. Qed.

(** On the intents [process_nlp] assigns, "the intent occurs in the key"
    and "the key is the intent" agree for every key of the table. *)
Lemma intent_in_key_is_equality :
  Forall (fun i =>
    Forall (fun kd => PyStr.contains i (fst kd) = String.eqb (fst kd) i)
           fallback_data)
    ("general" :: map fst space_keywords).
Proof. repeat constructor. Qed.

(** What the function returns, by the keys that match. *)
Lemma get_fallback_results_filter (q : QueryInfo) :
  get_fallback_results q =
    match List.filter (fun kd => code_key_matches (fst kd) q) fallback_data
    with
    | [] => [general_space_article]
    | matches => map (fun kd => fallback_article (snd kd)) matches
    end.
Proof.
  unfold get_fallback_results. rewrite fallback_loop_filter.
  change (List.filter _ fallback_data) with
    (List.filter (fun kd => code_key_matches (fst kd) q) fallback_data).
  cbn [app].
  by destruct (List.filter (fun kd => code_key_matches (fst kd) q)
                 fallback_data).
Qed.

Lemma get_fallback_results_nonempty (q : QueryInfo) :
  get_fallback_results q <> [].
Proof.
  rewrite get_fallback_results_filter.
  by destruct (List.filter (fun kd => code_key_matches (fst kd) q)
                 fallback_data).
Qed.

(** C5, as the code has it.  [get_fallback_results] returns one article
    per matching key of [fallback_data], in table order and each of
    relevance 3, where a key matches when it occurs in the lowered raw
    query, or the intent occurs in it, or a keyword of the list occurs in
    it; when no key matches it returns the one "Space Exploration" article,
    of relevance 2; it never returns the empty list. *)
Theorem get_fallback_results_matches (q : QueryInfo) :
  let matches :=
    List.filter (fun kd => code_key_matches (fst kd) q) fallback_data in
  get_fallback_results q =
    match matches with
    | [] => [general_space_article]
    | _ => map (fun kd => fallback_article (snd kd)) matches
    end /\
  Forall (fun a => relevance a = 3)
         (map (fun kd => fallback_article (snd kd)) matches) /\
  title general_space_article = "Space Exploration" /\
  relevance general_space_article = 2 /\
  get_fallback_results q <> [].
Proof.
  intros matches. split.
  { rewrite get_fallback_results_filter. fold matches. by destruct matches. }
  split; [apply fallback_relevance |]. split; [done |]. split; [done |].
  apply get_fallback_results_nonempty.
Qed.

(** C5 as stated fails on the query "hub": no key of the table is in the
    query, is the intent, or has one of its words in the keyword list, yet
    the keyword "hub" occurs in the key "hubble" and the Hubble article is
    returned, not the generic one. *)
Lemma get_fallback_results_hub :
  process_nlp offline_scraper "hub" = Some hub_query /\
  spec_fallback_results hub_query = [general_space_article] /\
  map title (get_fallback_results hub_query) = ["Hubble Space Telescope"] /\
  get_fallback_results hub_query <> spec_fallback_results hub_query.
Proof. vm_compute. repeat split; discriminate. Qed.

(** ** Scheduling of the scrapers *)

Section Scheduling.
Variables (self : SpaceInfoScraper) (query_info : QueryInfo).

(** Calls are only ever added to the log. *)
Lemma run_scrapers_keeps_calls (l : list Scraper) (st : Gathered)
    (n : string) :
  In n (attempted st) -> In n (attempted (run_scrapers l query_info st)).
Proof.
  revert st; induction l as [|s l IH]; intros st Hn; simpl; [done |].
  destruct (condition s); [| by apply IH].
  destruct (func s query_info); apply IH; simpl;
    apply in_or_app; by left.
Qed.

(** An entry whose condition holds is called, whatever the scrapers
    before it have returned. *)
Lemma run_scrapers_calls_enabled (l : list Scraper) (st : Gathered)
    (s : Scraper) :
  In s l -> condition s = true ->
  In (name s) (attempted (run_scrapers l query_info st)).
Proof.
  revert st; induction l as [|s' l IH]; intros st Hin Hc;
    [destruct Hin |].
  destruct Hin as [-> | Hin]; simpl.
  - rewrite Hc.
    destruct (func s query_info); apply run_scrapers_keeps_calls; simpl;
      apply in_or_app; right; by left.
  - destruct (condition s'); [| by apply IH].
    destruct (func s' query_info); by apply IH.
Qed.

(** The calls made are those of the entries whose condition holds, in
    list order. *)
Lemma run_scrapers_calls (l : list Scraper) (st : Gathered) :
  attempted (run_scrapers l query_info st) =
  attempted st ++ map name (List.filter condition l).
Proof.
  revert st; induction l as [|s l IH]; intros st; simpl.
  - by rewrite app_nil_r.
  - destruct (condition s); [| apply IH].
    destruct (func s query_info); rewrite IH; simpl;
      by rewrite <- app_assoc.
Qed.

End Scheduling.

Lemma with_fallback_calls (q : QueryInfo) (st : Gathered) :
  attempted (with_fallback q st) = attempted st.
Proof. unfold with_fallback. by destruct (all_results st). Qed.

(** The scrapers [get_space_info] calls once the query is analyzed. *)
Lemma aggregate_calls (self : SpaceInfoScraper) (q : QueryInfo) :
  attempted (fst (aggregate self q)) =
  map name (List.filter condition
              (scrapers self q (all_results no_results_yet))).
Proof.
  unfold aggregate. cbn [fst].
  by rewrite with_fallback_calls, run_scrapers_calls.
Qed.

(** C9.  The list [scrapers] is built while the accumulator is still
    empty, so the conditions [len(all_results) < 3] of "NASA Homepage" and
    [len(all_results) < 5] of "Universe Today" hold in it for every
    analyzed query, and both scrapers are called whatever the scrapers
    before them return. *)
Theorem homepage_scrapers_always_scheduled
    (self : SpaceInfoScraper) (q : QueryInfo) :
  let l := scrapers self q (all_results no_results_yet) in
  all_results no_results_yet = [] /\
  In {| name := "NASA Homepage"; func := scrape_nasa_homepage self;
        condition := true |} l /\
  In {| name := "Universe Today"; func := scrape_universe_today self;
        condition := true |} l /\
  In "NASA Homepage" (map name (List.filter condition l)) /\
  In "Universe Today" (map name (List.filter condition l)) /\
  In "NASA Homepage" (attempted (fst (aggregate self q))) /\
  In "Universe Today" (attempted (fst (aggregate self q))).
Proof.
  intros l.
  assert (H1 : In {| name := "NASA Homepage";
                     func := scrape_nasa_homepage self;
                     condition := true |} l)
    by (do 8 right; left; reflexivity).
  assert (H2 : In {| name := "Universe Today";
                     func := scrape_universe_today self;
                     condition := true |} l)
    by (do 9 right; left; reflexivity).
  assert (Hcalls : forall n,
            In n (map name (List.filter condition l)) ->
            In n (attempted (fst (aggregate self q)))).
  { intros n Hn. by rewrite aggregate_calls. }
  assert (F1 : In "NASA Homepage" (map name (List.filter condition l))).
  { change "NASA Homepage" with
      (name {| name := "NASA Homepage"; func := scrape_nasa_homepage self;
               condition := true |}).
    apply in_map, filter_In. by split. }
  assert (F2 : In "Universe Today" (map name (List.filter condition l))).
  { change "Universe Today" with
      (name {| name := "Universe Today"; func := scrape_universe_today self;
               condition := true |}).
    apply in_map, filter_In. by split. }
  repeat split; auto.
Qed.

(** ** The HTTP handler and empty queries *)

(** C4, as the code has it.  The handler [search] of api.py answers
    every empty or white-space-only query with the error "Please provide a
    query" and status 400, and no scraper is called; [get_space_info]
    itself does not look at the query before it works. *)
Theorem search_rejects_blank_query (self : SpaceInfoScraper) (query : string) :
  whitespace_only query = true ->
  search self (Some query) = ([], (ErrorBody "Please provide a query", 400)).
Proof.
  intros Hws. unfold search. simpl default.
  by rewrite (PyStrFacts.strip_whitespace query Hws).
Qed.

Lemma search_rejects_blank_query_witness :
  whitespace_only "   " = true /\
  search webb_scraper (Some "   ") =
    ([], (ErrorBody "Please provide a query", 400)).
Proof.
  split; [reflexivity |].
  apply (search_rejects_blank_query webb_scraper "   "). reflexivity.
Defined.

(** C4 as stated fails on [get_space_info]: on the query of three spaces
    it calls six scrapers and returns an ordinary response. *)
Lemma get_space_info_blank_query :
  whitespace_only "   " = true /\
  fst (get_space_info_calls offline_scraper "   ") =
    ["Wikipedia"; "Google"; "NASA"; "Space.com"; "NASA Homepage";
     "Universe Today"] /\
  fst (get_space_info_calls offline_scraper "   ") <> [] /\
  map title (results (get_space_info offline_scraper "   ")) =
    ["Space Exploration"].
Proof. vm_compute. repeat split; discriminate. Qed.

(** ** Sorting by relevance *)

Section Sorting.

Lemma insert_by_relevance_perm (x : Article) (l : list Article) :
  Permutation (insert_by_relevance x l) (x :: l).
Proof.
  induction l as [|y l IH]; simpl; [done |].
  destruct (relevance x <? relevance y); [| done].
  rewrite IH. apply perm_swap.
Qed.

Lemma sorted_by_relevance_perm (l : list Article) :
  Permutation (sorted_by_relevance l) l.
Proof.
  induction l as [|x l IH]; simpl; [done |].
  by rewrite insert_by_relevance_perm, IH.
Qed.

Lemma sorted_by_relevance_In (l : list Article) (a : Article) :
  In a (sorted_by_relevance l) <-> In a l.
Proof.
  split; apply Permutation_in;
    [| symmetry]; apply sorted_by_relevance_perm.
Qed.

Lemma insert_by_relevance_descending (x : Article) (l : list Article) :
  relevance_descending l -> relevance_descending (insert_by_relevance x l).
Proof.
  unfold relevance_descending.
  induction 1 as [|y l Hl IH Hy]; simpl.
  - repeat constructor.
  - destruct (Z.ltb_spec (relevance x) (relevance y)) as [Hlt | Hge].
    + constructor; [exact IH |].
      rewrite insert_by_relevance_perm. constructor; [| exact Hy].
      unfold at_least_as_relevant. lia.
    + constructor; [by constructor |].
      constructor; [exact Hge |].
      eapply Forall_impl; [exact Hy |].
      unfold at_least_as_relevant. intros; lia.
Qed.

Lemma sorted_by_relevance_descending (l : list Article) :
  relevance_descending (sorted_by_relevance l).
Proof.
  induction l as [|x l IH]; simpl.
  - constructor.
  - by apply insert_by_relevance_descending.
Qed.

(** Stability: the results of one relevance keep their order. *)
Lemma insert_by_relevance_stable (z : Z) (x : Article) (l : list Article) :
  List.filter (fun a => relevance a =? z) (insert_by_relevance x l) =
  List.filter (fun a => relevance a =? z) (x :: l).
Proof.
  induction l as [|y l IH]; [done |].
  cbn [insert_by_relevance].
  destruct (Z.ltb_spec (relevance x) (relevance y)) as [Hlt | Hge];
    [| done].
  cbn [List.filter] in *. rewrite IH.
  destruct (Z.eqb_spec (relevance x) z), (Z.eqb_spec (relevance y) z);
    try done; lia.
Qed.

Lemma sorted_by_relevance_stable (z : Z) (l : list Article) :
  List.filter (fun a => relevance a =? z) (sorted_by_relevance l) =
  List.filter (fun a => relevance a =? z) l.
Proof.
  induction l as [|x l IH]; [done |].
  cbn [sorted_by_relevance]. rewrite insert_by_relevance_stable.
  cbn [List.filter]. by rewrite IH.
Qed.

Lemma relevance_descending_sublist (l1 l2 : list Article) :
  sublist l1 l2 -> relevance_descending l2 -> relevance_descending l1.
Proof.
  unfold relevance_descending.
  induction 1 as [|x l1 l2 Hsub IH | x l1 l2 Hsub IH]; intros Hs.
  - constructor.
  - apply StronglySorted_inv in Hs as [Hs Hx].
    constructor; [by apply IH |].
    apply List.Forall_forall. intros y Hy.
    rewrite List.Forall_forall in Hx. apply Hx.
    apply list_elem_of_In. eapply sublist_subseteq; [exact Hsub |].
    by apply list_elem_of_In.
  - apply StronglySorted_inv in Hs as [Hs _]. by apply IH.
Qed.

(** In a descending list the first result of a title is one of maximum
    relevance among the results of that title. *)
Lemma first_with_title_max (l : list Article) (kept a : Article) :
  relevance_descending l -> first_with_title l kept -> In a l ->
  title a = title kept -> relevance a <= relevance kept.
Proof.
  intros Hs (pre & post & -> & Hpre) Hin Ht.
  apply in_app_or in Hin as [Hin | [<- | Hin]].
  - by destruct (Hpre a Hin).
  - lia.
  - apply StronglySorted_app in Hs as (_ & _ & Hs).
    apply StronglySorted_inv in Hs as [_ Hall].
    rewrite List.Forall_forall in Hall. by apply Hall.
Qed.

Lemma first_with_title_exists (l : list Article) (a : Article) :
  In a l -> exists kept, first_with_title l kept /\ title kept = title a.
Proof.
  induction l as [|y l IH]; [intros [] |].
  intros Hin. destruct (decide (title y = title a)) as [Heq | Hne].
  - exists y. split; [| exact Heq]. exists [], l. split; [done |].
    intros ? [].
  - destruct Hin as [-> | Hin]; [done |].
    destruct (IH Hin) as (kept & (pre & post & -> & Hpre) & Hk).
    exists kept. split; [| exact Hk].
    exists (y :: pre), post. split; [done |].
    intros y' [<- | Hy']; [congruence | by apply Hpre].
Qed.

End Sorting.

(** ** Removal of duplicate titles *)

Section Unique.

(** What the loop keeps: what it had, and each result that is the first
    of its title in [l] and whose title was not seen before. *)
Lemma unique_loop_In (l u : list Article) (seen : gset string)
    (x : Article) :
  In x (unique_loop l u seen) <->
  In x u \/ ((title x ∉ seen) /\ first_with_title l x).
Proof.
  revert u seen; induction l as [|r l IH]; intros u seen; simpl.
  - split; [by left |].
    intros [H | [_ (pre & post & Hnil & _)]]; [done |].
    by destruct pre.
  - case_bool_decide as Hr; rewrite IH; clear IH.
    + rewrite in_app_iff. simpl. split.
      * intros [[H | [<- | []]] | [Hx (pre & post & -> & Hpre)]].
        -- by left.
        -- right. split; [done |]. exists [], l. split; [done |].
           intros ? [].
        -- right. split; [set_solver |].
           exists (r :: pre), post. split; [done |].
           intros y [<- | Hy]; [set_solver | by apply Hpre].
      * intros [H | [Hx (pre & post & Heq & Hpre)]]; [by left; left |].
        destruct pre as [|r' pre]; simpl in Heq; injection Heq as ? ?;
          subst.
        -- left; right; by left.
        -- right. split.
           ++ assert (title r' <> title x) by (apply Hpre; by left).
              intros [? | ?%elem_of_singleton]%elem_of_union;
                [done | congruence].
           ++ exists pre, post. split; [done |]. intros y Hy.
              apply Hpre. by right.
    + split.
      * intros [H | [Hx (pre & post & -> & Hpre)]]; [by left |].
        right. split; [done |]. exists (r :: pre), post.
        split; [done |].
        intros y [<- | Hy]; [| by apply Hpre].
        intros Heq. apply Hx. by rewrite <- Heq.
      * intros [H | [Hx (pre & post & Heq & Hpre)]]; [by left |].
        destruct pre as [|r' pre]; simpl in Heq; injection Heq as ? ?;
          subst.
        -- done.
        -- right. split; [done |]. exists pre, post. split; [done |].
           intros y Hy. apply Hpre. by right.
Qed.

(** The loop never keeps two results of one title. *)
Lemma unique_loop_NoDup (l u : list Article) (seen : gset string) :
  NoDup (map title u) ->
  (forall a, In a u -> title a ∈ seen) ->
  NoDup (map title (unique_loop l u seen)).
Proof.
  revert u seen; induction l as [|r l IH]; intros u seen Hnd Hseen;
    simpl; [done |].
  case_bool_decide as Hr; [| by apply IH].
  apply IH.
  - rewrite map_app. simpl. apply NoDup_app. split; [done |].
    split; [| apply NoDup_singleton].
    intros t Ht ->%list_elem_of_singleton.
    apply list_elem_of_In, in_map_iff in Ht as (a & Hta & Ha).
    apply Hr. rewrite <- Hta. by apply Hseen.
  - intros a [Ha | [<- | []]]%in_app_or; [| set_solver].
    specialize (Hseen a Ha). set_solver.
Qed.

(** It keeps what it had, in front, and appends a selection of [l] in
    the order of [l]. *)
Lemma unique_loop_sublist (l u : list Article) (seen : gset string) :
  exists kept, unique_loop l u seen = u ++ kept /\ sublist kept l.
Proof.
  revert u seen; induction l as [|r l IH]; intros u seen; simpl.
  - exists []. by rewrite app_nil_r.
  - case_bool_decide as Hr.
    + destruct (IH (u ++ [r]) (seen ∪ {[title r]})) as (kept & -> & Hs).
      exists (r :: kept). rewrite <- app_assoc. split; [done |].
      by constructor.
    + destruct (IH u seen) as (kept & -> & Hs).
      exists kept. split; [done |]. by constructor.
Qed.

Lemma unique_by_title_In (l : list Article) (x : Article) :
  In x (unique_by_title l) <-> first_with_title (sorted_by_relevance l) x.
Proof.
  unfold unique_by_title. rewrite unique_loop_In. split.
  - by intros [[] | [_ H]].
  - intros H. right. split; [set_solver | done].
Qed.

Lemma unique_by_title_NoDup (l : list Article) :
  NoDup (map title (unique_by_title l)).
Proof. apply unique_loop_NoDup; [constructor | intros ? []]. Qed.

Lemma unique_by_title_descending (l : list Article) :
  relevance_descending (unique_by_title l).
Proof.
  unfold unique_by_title.
  destruct (unique_loop_sublist (sorted_by_relevance l) [] ∅)
    as (kept & -> & Hs).
  eapply relevance_descending_sublist; [exact Hs |].
  apply sorted_by_relevance_descending.
Qed.

Lemma unique_by_title_nonempty (l : list Article) :
  l <> [] -> unique_by_title l <> [].
Proof.
  destruct l as [|a l]; [done |]. intros _ Hnil.
  destruct (first_with_title_exists (sorted_by_relevance (a :: l)) a)
    as (kept & Hk & _).
  { apply sorted_by_relevance_In. by left. }
  apply unique_by_title_In in Hk. rewrite Hnil in Hk. destruct Hk.
Qed.

(** Every gathered result has its title kept, on the first result of
    that title in relevance order, which is at least as relevant. *)
Lemma unique_by_title_keeps_best (l : list Article) (a : Article) :
  In a l ->
  exists kept,
    In kept (unique_by_title l) /\ title kept = title a /\
    relevance a <= relevance kept /\
    first_with_title (sorted_by_relevance l) kept.
Proof.
  intros Ha%sorted_by_relevance_In.
  destruct (first_with_title_exists _ _ Ha) as (kept & Hk & Ht).
  exists kept. split; [by apply unique_by_title_In |].
  split; [done |]. split; [| done].
  eapply first_with_title_max; eauto using sorted_by_relevance_descending.
Qed.

Lemma unique_by_title_max (l : list Article) (kept a : Article) :
  In kept (unique_by_title l) -> In a l -> title a = title kept ->
  relevance a <= relevance kept.
Proof.
  intros Hk%unique_by_title_In Ha%sorted_by_relevance_In Ht.
  eapply first_with_title_max; eauto using sorted_by_relevance_descending.
Qed.

End Unique.

(** ** The response of [get_space_info] *)

Section Response.
Variable self : SpaceInfoScraper.

Lemma get_space_info_analyzed (query : string) (q : QueryInfo) :
  process_nlp self query = Some q ->
  get_space_info self query = snd (aggregate self q).
Proof.
  intros H. unfold get_space_info, get_space_info_calls. rewrite H.
  by destruct (aggregate self q).
Qed.

Lemma get_space_info_failed (query : string) :
  process_nlp self query = None ->
  get_space_info self query = error_response query.
Proof.
  intros H. unfold get_space_info, get_space_info_calls. by rewrite H.
Qed.

Lemma aggregate_results (q : QueryInfo) :
  results (snd (aggregate self q)) =
    top10 (unique_by_title (all_results (fst (aggregate self q)))) /\
  total_found (snd (aggregate self q)) =
    length (unique_by_title (all_results (fst (aggregate self q)))).
Proof. unfold aggregate. cbn [fst snd results total_found]. by split. Qed.

(** After the knowledge base has been consulted there is a result. *)
Lemma with_fallback_nonempty (q : QueryInfo) (st : Gathered) :
  all_results (with_fallback q st) <> [].
Proof.
  unfold with_fallback. destruct (all_results st) eqn:E.
  - cbn [all_results app]. apply get_fallback_results_nonempty.
  - by rewrite E.
Qed.

Lemma aggregate_gathered_nonempty (q : QueryInfo) :
  all_results (fst (aggregate self q)) <> [].
Proof. unfold aggregate. cbn [fst]. apply with_fallback_nonempty. Qed.

Lemma top10_NoDup_titles (l : list Article) :
  NoDup (map title l) -> NoDup (map title (top10 l)).
Proof.
  unfold top10. rewrite <- firstn_map. intros H.
  eapply sublist_NoDup; [exact H | apply sublist_take].
Qed.

Lemma top10_In (l : list Article) (a : Article) :
  In a (top10 l) -> In a l.
Proof.
  unfold top10. rewrite <- !list_elem_of_In.
  apply sublist_subseteq, sublist_take.
Qed.

(** The fields of the returned dict: all four, or the three of the
    [except] clause when the analysis raised. *)
Lemma get_space_info_fields (query : string) :
  response_fields (get_space_info self query) =
    ["query_info"; "results"; "total_found"; "sources_info"] \/
  (process_nlp self query = None /\
   response_fields (get_space_info self query) =
     ["query_info"; "results"; "total_found"]).
Proof.
  destruct (process_nlp self query) as [q|] eqn:E.
  - left. by rewrite (get_space_info_analyzed query q E).
  - right. split; [done |]. by rewrite (get_space_info_failed query E).
Qed.

(** When the analysis raises, the response holds the one "System"
    article and [total_found] is 1. *)
Lemma get_space_info_on_failure (query : string) :
  process_nlp self query = None ->
  map source (results (get_space_info self query)) = ["System"] /\
  total_found (get_space_info self query) = 1%nat.
Proof. intros E. by rewrite (get_space_info_failed query E). Qed.

End Response.

(** C1.  For every scraper object and every query the response of
    [get_space_info] has at most 10 results and at least one, no two
    results have the same title, and [total_found] is at least the number
    of results. *)
Theorem get_space_info_invariants (self : SpaceInfoScraper) (query : string) :
  let r := get_space_info self query in
  (length (results r) <= 10)%nat /\
  (1 <= length (results r))%nat /\
  NoDup (map title (results r)) /\
  (length (results r) <= total_found r)%nat.
Proof.
  intros r. subst r.
  destruct (process_nlp self query) as [q|] eqn:E.
  - rewrite (get_space_info_analyzed self query q E).
    destruct (aggregate_results self q) as [-> ->].
    pose proof (aggregate_gathered_nonempty self q) as Hne.
    apply unique_by_title_nonempty in Hne.
    pose proof (unique_by_title_NoDup (all_results (fst (aggregate self q))))
      as Hnd.
    set (u := unique_by_title (all_results (fst (aggregate self q)))) in *.
    assert (Hlen : (1 <= length u)%nat)
      by (destruct u; [done | simpl; lia]).
    assert (Htake : length (top10 u) = Nat.min 10 (length u))
      by apply length_take.
    split; [lia |]. split; [lia |].
    split; [by apply top10_NoDup_titles | lia].
  - rewrite (get_space_info_failed self query E). simpl.
    split; [lia |]. split; [lia |].
    split; [apply NoDup_singleton | lia].
Qed.

(** C2.  For every scraper object and every query the results of
    [get_space_info] are in non-increasing order of relevance; after the
    removal of duplicates every title of a gathered result is kept once,
    on the first result of that title in relevance order, and no gathered
    result of that title is more relevant than the one kept. *)
Theorem get_space_info_ranking (self : SpaceInfoScraper) (query : string) :
  let r := get_space_info self query in
  let gathered := gathered_results self query in
  relevance_descending (results r) /\
  NoDup (map title (unique_by_title gathered)) /\
  (forall a, In a gathered ->
     exists kept,
       In kept (unique_by_title gathered) /\ title kept = title a /\
       relevance a <= relevance kept /\
       first_with_title (sorted_by_relevance gathered) kept) /\
  (forall kept a, In kept (results r) -> In a gathered ->
     title a = title kept -> relevance a <= relevance kept) /\
  (results r = top10 (unique_by_title gathered) \/
   process_nlp self query = None).
Proof.
  intros r gathered. subst r gathered. unfold gathered_results.
  split; [| split; [apply unique_by_title_NoDup |
                    split; [apply unique_by_title_keeps_best |]]].
  - destruct (process_nlp self query) as [q|] eqn:E.
    + rewrite (get_space_info_analyzed self query q E).
      destruct (aggregate_results self q) as [-> _].
      eapply relevance_descending_sublist; [apply sublist_take |].
      apply unique_by_title_descending.
    + rewrite (get_space_info_failed self query E).
      repeat constructor.
  - destruct (process_nlp self query) as [q|] eqn:E.
    + rewrite (get_space_info_analyzed self query q E).
      destruct (aggregate_results self q) as [-> _].
      split; [| by left].
      intros kept a Hk%top10_In Ha Ht.
      by eapply unique_by_title_max.
    + split; [intros ? ? _ [] | by right].
Qed.

(** Scenario C of the specification: of two articles titled "James Webb
    Space Telescope", of relevance 4 and 7, the one of relevance 7 is
    kept. *)
Lemma get_space_info_ranking_witness :
  In (webb "Wikipedia" 4) (gathered_results webb_scraper "james webb") /\
  In (webb "NASA" 7) (gathered_results webb_scraper "james webb") /\
  results (get_space_info webb_scraper "james webb") = [webb "NASA" 7] /\
  relevance_descending (results (get_space_info webb_scraper "james webb")) /\
  relevance (webb "Wikipedia" 4) <= relevance (webb "NASA" 7).
Proof.
  destruct (get_space_info_ranking webb_scraper "james webb")
    as (Hdesc & _ & _ & Hmax & _).
  assert (H4 : In (webb "Wikipedia" 4)
                 (gathered_results webb_scraper "james webb"))
    by (vm_compute; by left).
  assert (H7 : results (get_space_info webb_scraper "james webb") =
               [webb "NASA" 7]) by (vm_compute; reflexivity).
  split; [exact H4 |].
  split; [vm_compute; right; by left |].
  split; [exact H7 |].
  split; [exact Hdesc |].
  apply (Hmax (webb "NASA" 7) (webb "Wikipedia" 4));
    [rewrite H7; by left | exact H4 | reflexivity].
Defined.

(** C3, at a query whose analysis raises (the lemmatizer's data is
    missing).  [get_space_info] returns the dict of its [except] clause:
    one article of source "System", [total_found] 1, and the fields
    [query_info], [results] and [total_found]; the field [sources_info] of
    the ordinary response is not in it. *)
Theorem get_space_info_degraded_fields :
  process_nlp no_wordnet_scraper "mars" = None /\
  get_space_info no_wordnet_scraper "mars" = error_response "mars" /\
  map source (results (get_space_info no_wordnet_scraper "mars")) =
    ["System"] /\
  total_found (get_space_info no_wordnet_scraper "mars") = 1%nat /\
  response_fields (get_space_info no_wordnet_scraper "mars") =
    ["query_info"; "results"; "total_found"] /\
  ~ In "sources_info"
       (response_fields (get_space_info no_wordnet_scraper "mars")) /\
  response_fields (get_space_info offline_scraper "mars") =
    ["query_info"; "results"; "total_found"; "sources_info"].
Proof.
  vm_compute. repeat split.
  intros [H | [H | [H | []]]]; discriminate H.
Qed.


(** ** What the scraping loop gathers *)

Section Gathering.
Variable query_info : QueryInfo.

Lemma run_scrapers_all_results (l : list Scraper) (st : Gathered) :
  all_results (run_scrapers l query_info st) =
  all_results st ++ flat_map (contribution query_info) (List.filter condition l).
Proof.
  revert st; induction l as [|s l IH]; intros st; simpl.
  - by rewrite app_nil_r.
  - destruct (condition s); [| apply IH].
    cbn [flat_map]. unfold contribution at 1.
    destruct (func s query_info) as [r|]; rewrite IH; simpl.
    + by rewrite <- app_assoc.
    + done.
Qed.

Lemma dict_set_fresh {V : Type} (d : list (string * V)) (k : string) (v : V) :
  ~ In k (map fst d) -> dict_set d k v = d ++ [(k, v)].
Proof.
  induction d as [|[k' v'] d IH]; simpl; [done |].
  intros Hk. destruct (String.eqb_spec k' k) as [-> | Hne].
  - destruct Hk. by left.
  - rewrite IH; [done |]. intros Hin. apply Hk. by right.
Qed.

(** With names that are pairwise distinct and not yet keys of the dict,
    each scraper that returns gets an entry of its own, in call order. *)
Lemma run_scrapers_source_results (l : list Scraper) (st : Gathered) :
  NoDup (map name l) ->
  (forall n, In n (map fst (source_results st)) -> ~ In n (map name l)) ->
  source_results (run_scrapers l query_info st) =
  source_results st ++ flat_map (stored query_info) (List.filter condition l).
Proof.
  revert st; induction l as [|s l IH]; intros st Hnd Hdis; simpl.
  - by rewrite app_nil_r.
  - simpl in Hnd. apply NoDup_cons in Hnd as [Hs Hnd].
    assert (Hfresh : ~ In (name s) (map fst (source_results st))).
    { intros Hin. apply (Hdis _ Hin). by left. }
    assert (Hrest : forall n, In n (map fst (source_results st)) ->
                              ~ In n (map name l)).
    { intros n Hn Hin. apply (Hdis n Hn). by right. }
    destruct (condition s); [| by apply IH].
    cbn [flat_map]. unfold stored at 1.
    destruct (func s query_info) as [r|];
      [| rewrite IH; cbn [source_results]; done].
    rewrite IH; cbn [source_results]; [| done |].
    + rewrite (dict_set_fresh _ _ _ Hfresh). by rewrite <- app_assoc.
    + rewrite (dict_set_fresh _ _ _ Hfresh), map_app.
      intros n [Hn | [<- | []]]%in_app_or; [by apply Hrest |].
      by rewrite <- list_elem_of_In.
Qed.

Lemma stored_contribution (l : list Scraper) :
  flat_map snd (flat_map (stored query_info) l) =
  flat_map (contribution query_info) l.
Proof.
  induction l as [|s l IH]; simpl; [done |].
  rewrite flat_map_app, IH. f_equal.
  unfold stored, contribution. destruct (func s query_info); simpl;
    [by rewrite app_nil_r | done].
Qed.

Lemma stored_names (l : list Scraper) (n : string) :
  In n (map fst (flat_map (stored query_info) l)) -> In n (map name l).
Proof.
  induction l as [|s l IH]; simpl; [done |].
  rewrite map_app, in_app_iff. intros [H | H]; [| right; by apply IH].
  left. unfold stored in H. destruct (func s query_info); simpl in H;
    [by destruct H | done].
Qed.

Lemma stored_names_NoDup (l : list Scraper) :
  NoDup (map name l) -> NoDup (map fst (flat_map (stored query_info) l)).
Proof.
  induction l as [|s l IH]; simpl; [constructor |].
  intros [Hs Hl]%NoDup_cons. rewrite map_app. apply NoDup_app.
  split; [| split; [| by apply IH]].
  - unfold stored. destruct (func s query_info); simpl;
      [apply NoDup_singleton | constructor].
  - intros n Hn Hin. apply Hs.
    unfold stored in Hn. destruct (func s query_info); simpl in Hn.
    + apply list_elem_of_singleton in Hn as ->.
      apply list_elem_of_In. apply stored_names. by apply list_elem_of_In.
    + by apply elem_of_nil in Hn.
Qed.

End Gathering.

(** The names of the ten entries, whatever the query. *)
Lemma scrapers_names (self : SpaceInfoScraper) (q : QueryInfo)
    (acc : list Article) :
  map name (scrapers self q acc) =
  ["Wikipedia"; "Google"; "NASA"; "Space.com"; "NASA Science"; "Space Facts";
   "USGS Astrogeology"; "SpaceX"; "NASA Homepage"; "Universe Today"].
Proof. reflexivity. Qed.

Lemma scrapers_names_NoDup (self : SpaceInfoScraper) (q : QueryInfo)
    (acc : list Article) :
  NoDup (map name (scrapers self q acc)).
Proof.
  rewrite scrapers_names. apply (bool_decide_unpack _). by vm_compute.
Qed.

Lemma filter_names_NoDup (l : list Scraper) :
  NoDup (map name l) -> NoDup (map name (List.filter condition l)).
Proof.
  induction l as [|s l IH]; simpl; [done |].
  intros [Hs Hl]%NoDup_cons. destruct (condition s); simpl; [| by apply IH].
  apply NoDup_cons. split; [| by apply IH].
  intros Hin. apply Hs.
  apply list_elem_of_In, in_map_iff in Hin as (s' & <- & Hs').
  apply list_elem_of_In, in_map. by apply filter_In in Hs' as [? _].
Qed.

Lemma enabled_names_NoDup (self : SpaceInfoScraper) (q : QueryInfo) :
  NoDup (map name (enabled_scrapers self q)).
Proof. apply filter_names_NoDup, scrapers_names_NoDup. Qed.

Lemma static_knowledge_not_a_scraper (self : SpaceInfoScraper)
    (q : QueryInfo) :
  ~ In "Static Knowledge" (map name (enabled_scrapers self q)).
Proof.
  intros Hin.
  assert (H : In "Static Knowledge"
                (map name (scrapers self q (all_results no_results_yet)))).
  { apply in_map_iff in Hin as (s & <- & Hs).
    apply in_map. by apply filter_In in Hs as [? _]. }
  rewrite scrapers_names in H. simpl in H.
  repeat (destruct H as [H | H]; [discriminate H |]). done.
Qed.

(** The state before the knowledge base is consulted. *)
Lemma scraping_state (self : SpaceInfoScraper) (q : QueryInfo) :
  let st := run_scrapers (scrapers self q (all_results no_results_yet)) q
              no_results_yet in
  all_results st = scraped self q /\
  source_results st = flat_map (stored q) (enabled_scrapers self q).
Proof.
  intros st. subst st. split.
  - by rewrite run_scrapers_all_results.
  - rewrite run_scrapers_source_results;
      [done | apply scrapers_names_NoDup | intros ? []].
Qed.

(** The state the ranking starts from. *)
Lemma aggregate_state (self : SpaceInfoScraper) (q : QueryInfo) :
  fst (aggregate self q) =
  with_fallback q
    (run_scrapers (scrapers self q (all_results no_results_yet)) q
       no_results_yet).
Proof. unfold aggregate. by cbn [fst]. Qed.

Lemma aggregate_gathered (self : SpaceInfoScraper) (q : QueryInfo) :
  all_results (fst (aggregate self q)) =
    match scraped self q with
    | [] => get_fallback_results q
    | _ => scraped self q
    end /\
  source_results (fst (aggregate self q)) =
    flat_map (stored q) (enabled_scrapers self q)
    ++ match scraped self q with
       | [] => [("Static Knowledge", get_fallback_results q)]
       | _ => []
       end.
Proof.
  rewrite aggregate_state.
  destruct (scraping_state self q) as [Hall Hsrc].
  unfold with_fallback. rewrite Hall.
  destruct (scraped self q) as [|a l] eqn:E.
  - cbn [all_results source_results app]. split; [done |].
    destruct (get_fallback_results q) as [|f fs] eqn:Ef.
    { by destruct (get_fallback_results_nonempty q). }
    rewrite Hsrc. apply dict_set_fresh.
    intros Hin%stored_names. by apply static_knowledge_not_a_scraper in Hin.
  - rewrite Hall, Hsrc. by rewrite app_nil_r.
Qed.


Lemma aggregate_sources_info (self : SpaceInfoScraper) (q : QueryInfo) :
  sources_info (snd (aggregate self q)) =
  Some (make_sources_info (source_results (fst (aggregate self q)))).
Proof. unfold aggregate. by cbn [fst snd sources_info]. Qed.

Lemma aggregate_query_info (self : SpaceInfoScraper) (q : QueryInfo) :
  query_info (snd (aggregate self q)) = q.
Proof. unfold aggregate. by cbn [snd query_info]. Qed.

Lemma gathered_results_analyzed (self : SpaceInfoScraper) (query : string)
    (q : QueryInfo) :
  process_nlp self query = Some q ->
  gathered_results self query = all_results (fst (aggregate self q)).
Proof. intros H. unfold gathered_results. by rewrite H. Qed.

Lemma get_space_info_calls_analyzed (self : SpaceInfoScraper)
    (query : string) (q : QueryInfo) :
  process_nlp self query = Some q ->
  fst (get_space_info_calls self query) = attempted (fst (aggregate self q)).
Proof.
  intros H. unfold get_space_info_calls. rewrite H.
  by destruct (aggregate self q).
Qed.

(** X1.  The knowledge base is consulted exactly when the scrapers that
    were called returned nothing in all: then the gathered results are the
    static ones and "Static Knowledge" is listed among the sources queried;
    otherwise the gathered results are what the scrapers returned, in call
    order, and "Static Knowledge" is not listed. *)
Theorem static_knowledge_only_when_nothing_scraped
    (self : SpaceInfoScraper) (query : string) (q : QueryInfo) :
  process_nlp self query = Some q ->
  gathered_results self query =
    match scraped self q with
    | [] => get_fallback_results q
    | _ => scraped self q
    end /\
  exists si,
    sources_info (get_space_info self query) = Some si /\
    (In "Static Knowledge" (sources_queried si) <-> scraped self q = []).
Proof.
  intros Hq. rewrite (gathered_results_analyzed self query q Hq).
  rewrite (get_space_info_analyzed self query q Hq).
  destruct (aggregate_gathered self q) as [Hall Hsrc].
  split; [exact Hall |].
  eexists. split; [apply aggregate_sources_info |].
  unfold make_sources_info. cbn [sources_queried]. rewrite Hsrc, map_app.
  rewrite in_app_iff. split.
  - intros [Hin%stored_names | Hin].
    + by apply static_knowledge_not_a_scraper in Hin.
    + by destruct (scraped self q).
  - intros ->. right. by left.
Qed.

Lemma static_knowledge_only_when_nothing_scraped_witness :
  process_nlp offline_scraper "mars" = Some mars_query /\
  gathered_results offline_scraper "mars" = get_fallback_results mars_query /\
  gathered_results wikipedia_only_scraper "mars" = [webb "Wikipedia" 4].
Proof.
  split; [reflexivity |]. split.
  - exact (proj1 (static_knowledge_only_when_nothing_scraped
                    offline_scraper "mars" mars_query eq_refl)).
  - exact (proj1 (static_knowledge_only_when_nothing_scraped
                    wikipedia_only_scraper "mars" mars_query eq_refl)).
Defined.

(** ** The source-usage metadata *)

Section SourcesInfo.
Variable sr : list (string * list Article).

Lemma counted_result_counts :
  counted (result_counts (make_sources_info sr)) = length (flat_map snd sr).
Proof.
  unfold make_sources_info. cbn [result_counts].
  induction sr as [|[k r] l IH]; [done |].
  cbn [List.filter flat_map snd]. rewrite length_app, <- IH.
  destruct r as [|a r]; [done |]. reflexivity.
Qed.

Lemma with_results_sublist :
  sublist (sources_with_results (make_sources_info sr))
          (sources_queried (make_sources_info sr)).
Proof.
  unfold make_sources_info. cbn [sources_with_results sources_queried].
  induction sr as [|[k r] l IH]; [constructor |].
  cbn [List.filter map snd]. destruct (nonempty r); by constructor.
Qed.

Lemma result_counts_keys :
  map fst (result_counts (make_sources_info sr)) =
  sources_with_results (make_sources_info sr).
Proof.
  unfold make_sources_info. cbn [sources_with_results result_counts].
  by rewrite map_map.
Qed.

Lemma result_counts_positive :
  Forall (fun c => (1 <= snd c)%nat) (result_counts (make_sources_info sr)).
Proof.
  unfold make_sources_info. cbn [result_counts].
  induction sr as [|[k r] l IH]; [constructor |].
  cbn [List.filter snd]. destruct r as [|a r]; [exact IH |].
  constructor; [simpl; lia | exact IH].
Qed.

End SourcesInfo.

Lemma unique_by_title_length (l : list Article) :
  (length (unique_by_title l) <= length l)%nat.
Proof.
  unfold unique_by_title.
  destruct (unique_loop_sublist (sorted_by_relevance l) [] ∅)
    as (kept & -> & Hs).
  apply sublist_length in Hs.
  rewrite (Permutation_length (sorted_by_relevance_perm l)) in Hs.
  exact Hs.
Qed.

(** X2.  In every ordinary response the metadata agrees with the results
    gathered: no source is listed twice, the sources with results are
    among the sources queried and in the same order, [result_counts] has
    one entry per source with results and each count is at least 1, the
    counts add up to the number of gathered results, and [total_found] is
    at most that sum.  A response without [sources_info] is the one of the
    [except] clause. *)
Theorem sources_info_consistent (self : SpaceInfoScraper) (query : string) :
  match sources_info (get_space_info self query) with
  | Some si =>
      NoDup (sources_queried si) /\
      sublist (sources_with_results si) (sources_queried si) /\
      map fst (result_counts si) = sources_with_results si /\
      Forall (fun c => (1 <= snd c)%nat) (result_counts si) /\
      counted (result_counts si) = length (gathered_results self query) /\
      (total_found (get_space_info self query)
       <= counted (result_counts si))%nat
  | None => process_nlp self query = None
  end.
Proof.
  destruct (process_nlp self query) as [q|] eqn:Hq.
  - rewrite (gathered_results_analyzed self query q Hq).
    rewrite (get_space_info_analyzed self query q Hq).
    rewrite aggregate_sources_info.
    destruct (aggregate_gathered self q) as [Hall Hsrc].
    destruct (aggregate_results self q) as [_ ->].
    assert (Hsum : counted (result_counts
                     (make_sources_info
                        (source_results (fst (aggregate self q))))) =
                   length (all_results (fst (aggregate self q)))).
    { rewrite counted_result_counts, Hsrc, Hall, flat_map_app.
      rewrite stored_contribution. fold (scraped self q).
      destruct (scraped self q); simpl; by rewrite ?app_nil_r. }
    split; [| split; [apply with_results_sublist |
              split; [apply result_counts_keys |
              split; [apply result_counts_positive |
              split; [exact Hsum |]]]]].
    + unfold make_sources_info. cbn [sources_queried]. rewrite Hsrc, map_app.
      apply NoDup_app. split; [| split].
      * apply stored_names_NoDup, enabled_names_NoDup.
      * intros n Hn Hin. destruct (scraped self q); simpl in Hin.
        -- apply list_elem_of_singleton in Hin as ->.
           apply list_elem_of_In, stored_names in Hn.
           by apply static_knowledge_not_a_scraper in Hn.
        -- by apply elem_of_nil in Hin.
      * destruct (scraped self q); simpl;
          [apply NoDup_singleton | constructor].
    + rewrite Hsum. apply unique_by_title_length.
  - by rewrite (get_space_info_failed self query Hq).
Qed.

(** ** A scraper that raises *)

Section Isolation.
Variables (self : SpaceInfoScraper) (q : QueryInfo).

(** Entry by entry, the list of [without_failures self] is the list of
    [self] quieted. *)
Lemma scrapers_quieted (acc : list Article) :
  Forall2 (quieted q) (scrapers self q acc)
                  (scrapers (without_failures self) q acc).
Proof. repeat constructor. Qed.

Lemma quieted_filter (l l' : list Scraper) :
  Forall2 (quieted q) l l' ->
  Forall2 (quieted q) (List.filter condition l) (List.filter condition l').
Proof.
  induction 1 as [|s s' l l' (Hn & Hc & Hf) _ IH]; simpl; [constructor |].
  rewrite Hc. destruct (condition s) eqn:E; [| exact IH].
  constructor; [repeat split; congruence | exact IH].
Qed.

Lemma quieted_contribution (l l' : list Scraper) :
  Forall2 (quieted q) l l' ->
  flat_map (contribution q) l' = flat_map (contribution q) l.
Proof.
  induction 1 as [|s s' l l' (Hn & Hc & Hf) _ IH]; simpl; [done |].
  rewrite IH. f_equal. unfold contribution at 1. by rewrite Hf.
Qed.

Lemma quieted_with_results (l l' : list Scraper) :
  Forall2 (quieted q) l l' ->
  List.filter (fun sr => nonempty (snd sr)) (flat_map (stored q) l') =
  List.filter (fun sr => nonempty (snd sr)) (flat_map (stored q) l).
Proof.
  induction 1 as [|s s' l l' (Hn & Hc & Hf) _ IH]; simpl; [done |].
  rewrite !List.filter_app, IH. f_equal.
  unfold stored. rewrite Hf, Hn. unfold contribution.
  by destruct (func s q) as [[|a r]|].
Qed.

Lemma scraped_without_failures :
  scraped (without_failures self) q = scraped self q.
Proof.
  unfold scraped, enabled_scrapers.
  apply quieted_contribution, quieted_filter, scrapers_quieted.
Qed.

Lemma gathered_without_failures :
  all_results (fst (aggregate (without_failures self) q)) =
  all_results (fst (aggregate self q)).
Proof.
  destruct (aggregate_gathered self q) as [-> _].
  destruct (aggregate_gathered (without_failures self) q) as [-> _].
  by rewrite scraped_without_failures.
Qed.

Lemma with_results_without_failures :
  List.filter (fun sr => nonempty (snd sr))
    (source_results (fst (aggregate (without_failures self) q))) =
  List.filter (fun sr => nonempty (snd sr))
    (source_results (fst (aggregate self q))).
Proof.
  destruct (aggregate_gathered self q) as [_ ->].
  destruct (aggregate_gathered (without_failures self) q) as [_ ->].
  rewrite scraped_without_failures, !List.filter_app. f_equal.
  apply quieted_with_results, quieted_filter, scrapers_quieted.
Qed.

End Isolation.

Lemma lemmatize_all_without_failures (self : SpaceInfoScraper)
    (ws : list string) :
  lemmatize_all (without_failures self) ws = lemmatize_all self ws.
Proof.
  induction ws as [|w ws IH]; [done |].
  cbn [lemmatize_all]. rewrite IH. reflexivity.
Qed.

Lemma process_nlp_without_failures (self : SpaceInfoScraper)
    (query : string) :
  process_nlp (without_failures self) query = process_nlp self query.
Proof.
  unfold process_nlp. rewrite lemmatize_all_without_failures. reflexivity.
Qed.

(** X3.  A scraper that raises changes nothing but the list of sources
    queried: the results, [total_found], the analyzed query, the sources
    with results and their counts are those obtained when each raising
    scraper returns the empty list instead. *)
Theorem raising_scraper_counts_as_empty
    (self : SpaceInfoScraper) (query : string) :
  let r := get_space_info self query in
  let r' := get_space_info (without_failures self) query in
  results r' = results r /\
  total_found r' = total_found r /\
  query_info r' = query_info r /\
  option_map sources_with_results (sources_info r') =
    option_map sources_with_results (sources_info r) /\
  option_map result_counts (sources_info r') =
    option_map result_counts (sources_info r).
Proof.
  intros r r'. subst r r'.
  pose proof (process_nlp_without_failures self query) as Hnlp.
  destruct (process_nlp self query) as [q|] eqn:Hq.
  - rewrite (get_space_info_analyzed self query q Hq).
    rewrite (get_space_info_analyzed (without_failures self) query q Hnlp).
    destruct (aggregate_results self q) as [-> ->].
    destruct (aggregate_results (without_failures self) q) as [-> ->].
    rewrite !aggregate_query_info, !aggregate_sources_info.
    rewrite gathered_without_failures.
    unfold make_sources_info. cbn [option_map sources_with_results
                                   result_counts].
    rewrite with_results_without_failures. done.
  - rewrite (get_space_info_failed self query Hq).
    by rewrite (get_space_info_failed (without_failures self) query Hnlp).
Qed.

(** ** The order of the calls *)

(** X4.  Once the query is analyzed the scrapers are called in one
    order: Wikipedia, Google, NASA and Space.com first, NASA Homepage and
    Universe Today last, and between them those of NASA Science, Space
    Facts, USGS Astrogeology and SpaceX that the intent selects, never all
    four: SpaceX is called with none of the other three.  So between six
    and nine calls are made, none twice.  When the analysis raises no
    scraper is called. *)
Theorem scrapers_called_in_fixed_order
    (self : SpaceInfoScraper) (query : string) :
  let calls := fst (get_space_info_calls self query) in
  (process_nlp self query = None /\ calls = []) \/
  exists special,
    calls = ["Wikipedia"; "Google"; "NASA"; "Space.com"] ++ special
            ++ ["NASA Homepage"; "Universe Today"] /\
    sublist special
      ["NASA Science"; "Space Facts"; "USGS Astrogeology"; "SpaceX"] /\
    (length special <= 3)%nat /\
    (In "SpaceX" special -> special = ["SpaceX"]) /\
    (6 <= length calls <= 9)%nat /\
    NoDup calls.
Proof.
  intros calls. subst calls.
  destruct (process_nlp self query) as [q|] eqn:Hq.
  2:{ left. split; [done |]. unfold get_space_info_calls. by rewrite Hq. }
  right. rewrite (get_space_info_calls_analyzed self query q Hq).
  assert (Hnd : NoDup (attempted (fst (aggregate self q)))).
  { rewrite aggregate_calls. apply enabled_names_NoDup. }
  revert Hnd. rewrite aggregate_calls. unfold scrapers.
  cbn [List.filter condition]. remember (intent q) as i eqn:Hi. clear Hi.
  destruct (PyStr.in_list i ["spacex"; "launch"; "rocket"]) eqn:Ex.
  - apply in_list_In in Ex.
    assert (Hi : i = "spacex" \/ i = "launch" \/ i = "rocket")
      by (simpl in Ex; intuition).
    intros Hnd. exists ["SpaceX"].
    destruct Hi as [-> | [-> | ->]]; vm_compute in Hnd |- *;
      (split; [reflexivity |]);
      (split; [repeat first [apply sublist_nil | apply sublist_skip
                             | apply sublist_cons] |]);
      (split; [lia |]); (split; [done |]); (split; [lia | exact Hnd]).
  - destruct (PyStr.in_list i ["solar"; "galaxy"; "universe"; "asteroid"]),
      (PyStr.in_list i ["solar"; "mars"; "moon"; "asteroid"]),
      (PyStr.in_list i ["mars"; "moon"; "asteroid"]);
      cbn [map name length app Nat.ltb Nat.leb all_results no_results_yet
           List.filter condition]; intros Hnd;
      match goal with
      | |- exists special, ?l = _ /\ _ =>
          let sp := eval vm_compute in (take (length l - 6) (drop 4 l)) in
          exists sp
      end; (split; [reflexivity |]);
      (split; [repeat first [apply sublist_nil | apply sublist_skip
                             | apply sublist_cons] |]);
      (split; [simpl; lia |]);
      (split; [simpl; intros H;
               repeat (destruct H as [H | H]; [discriminate H |]); done |]);
      (split; [simpl; lia | exact Hnd]).
Qed.

(** ** The intent of a response *)

Lemma intent_loop_range (table : list (string * list string))
    (lemmatized : list string) (d : string) :
  In (intent_loop table lemmatized d) (d :: map fst table).
Proof.
  induction table as [|[c kws] table IH]; simpl; [by left |].
  destruct (any_keyword_in kws lemmatized); [right; by left |].
  destruct IH as [IH | IH]; [by left | right; by right].
Qed.

Lemma process_nlp_fields (self : SpaceInfoScraper) (query : string)
    (q : QueryInfo) :
  process_nlp self query = Some q ->
  original_query q = query /\
  In (intent q) ("general" :: map fst space_keywords) /\
  processed_query q = PyStr.join " " (keywords q).
Proof.
  unfold process_nlp.
  destruct (lemmatize_all self (filtered_tokens self query)) as [lem|];
    [| done].
  intros H. apply (inj Some) in H. subst q.
  cbn [original_query intent processed_query keywords].
  split; [reflexivity |]. split; [apply intent_loop_range | reflexivity].
Qed.

(** X5.  The intent of every response is "general" or one of the twelve
    categories of [space_keywords], and the response carries the raw query
    unchanged.  As "rocket" is a trigger keyword but no category, the
    SpaceX scraper is called exactly for the intents "spacex" and
    "launch". *)
Theorem intent_is_a_category (self : SpaceInfoScraper) (query : string) :
  let r := get_space_info self query in
  In (intent (query_info r)) ("general" :: map fst space_keywords) /\
  original_query (query_info r) = query /\
  (In "SpaceX" (fst (get_space_info_calls self query)) <->
   intent (query_info r) = "spacex" \/ intent (query_info r) = "launch").
Proof.
  intros r. subst r.
  destruct (process_nlp self query) as [q|] eqn:Hq.
  - rewrite (get_space_info_analyzed self query q Hq).
    rewrite (get_space_info_calls_analyzed self query q Hq).
    rewrite aggregate_query_info, aggregate_calls.
    destruct (process_nlp_fields self query q Hq) as (Ho & Hi & _).
    split; [exact Hi |]. split; [exact Ho |].
    unfold scrapers. cbn [List.filter condition].
    remember (intent q) as i eqn:E. clear E Hq Ho.
    simpl in Hi.
    repeat (destruct Hi as [<- | Hi];
            [vm_compute; split;
             [intros H; repeat (destruct H as [H | H];
                                [try discriminate H |]);
              try done; auto
             | intros [H | H]; try discriminate H; auto 12] |]).
    done.
  - rewrite (get_space_info_failed self query Hq).
    unfold get_space_info_calls. rewrite Hq. cbn.
    split; [by left |]. split; [done |].
    split; [done | intros [H | H]; discriminate H].
Qed.

(** ** What is counted and what is returned *)

Lemma unique_by_title_subset (l : list Article) (x : Article) :
  In x (unique_by_title l) -> In x l.
Proof.
  intros (pre & post & Heq & _)%unique_by_title_In.
  apply sorted_by_relevance_In. rewrite Heq.
  apply in_or_app. right. by left.
Qed.

Lemma unique_by_title_titles (l : list Article) :
  titles (unique_by_title l) = titles l.
Proof.
  unfold titles. apply set_eq. intros t.
  rewrite !elem_of_list_to_set, !list_elem_of_In, !in_map_iff. split.
  - intros (x & <- & Hx). exists x. split; [done |].
    by apply unique_by_title_subset.
  - intros (a & <- & Ha).
    destruct (unique_by_title_keeps_best l a Ha) as (kept & Hk & Ht & _).
    by exists kept.
Qed.

Lemma unique_by_title_count (l : list Article) :
  length (unique_by_title l) = size (titles l).
Proof.
  rewrite <- unique_by_title_titles. unfold titles.
  rewrite size_list_to_set; [by rewrite length_map |].
  apply unique_by_title_NoDup.
Qed.

(** X6.  [total_found] is the number of distinct titles among the
    gathered results, and the response returns the 10 most relevant of
    them or all: [len(results) = min(10, total_found)], every result is a
    gathered article as it was gathered, and when [total_found] is at most
    10 every gathered title is among the results.  The one exception is
    the response of the [except] clause. *)
Theorem total_found_counts_titles (self : SpaceInfoScraper) (query : string) :
  let r := get_space_info self query in
  let gathered := gathered_results self query in
  length (results r) = Nat.min 10 (total_found r) /\
  ((process_nlp self query = None /\ r = error_response query) \/
   (total_found r = size (titles gathered) /\
    (forall a, In a (results r) -> In a gathered) /\
    ((total_found r <= 10)%nat -> titles (results r) = titles gathered))).
Proof.
  intros r gathered. subst r gathered.
  destruct (process_nlp self query) as [q|] eqn:Hq.
  - rewrite (gathered_results_analyzed self query q Hq).
    rewrite (get_space_info_analyzed self query q Hq).
    destruct (aggregate_results self q) as [-> ->].
    set (all := all_results (fst (aggregate self q))).
    split; [unfold top10; apply length_take |].
    right. split; [apply unique_by_title_count |]. split.
    + intros a Ha%top10_In. by apply unique_by_title_subset.
    + intros Hle. unfold top10.
      rewrite take_ge by exact Hle. apply unique_by_title_titles.
  - rewrite (get_space_info_failed self query Hq).
    split; [done |]. by left.
Qed.

Lemma total_found_counts_titles_witness :
  (total_found (get_space_info webb_scraper "james webb") <= 10)%nat /\
  titles (results (get_space_info webb_scraper "james webb")) =
  titles (gathered_results webb_scraper "james webb").
Proof.
  assert (Hle : (total_found (get_space_info webb_scraper "james webb")
                 <= 10)%nat) by (vm_compute; lia).
  split; [exact Hle |].
  destruct (total_found_counts_titles webb_scraper "james webb")
    as [_ [[Hnone _] | (_ & _ & Hall)]].
  - discriminate Hnone.
  - exact (Hall Hle).
Defined.

(** ** The response made of static knowledge *)

Lemma sorted_by_relevance_constant (c : Z) (l : list Article) :
  Forall (fun a => relevance a = c) l -> sorted_by_relevance l = l.
Proof.
  induction 1 as [|x l Hx Hl IH]; [done |].
  cbn [sorted_by_relevance]. rewrite IH.
  destruct Hl as [|y l Hy _]; [done |].
  cbn [insert_by_relevance]. rewrite Hx, Hy.
  by rewrite Z.ltb_irrefl.
Qed.

Lemma unique_loop_distinct (l u : list Article) (seen : gset string) :
  NoDup (map title l) ->
  (forall a, In a l -> title a ∉ seen) ->
  unique_loop l u seen = u ++ l.
Proof.
  revert u seen; induction l as [|r l IH]; intros u seen Hnd Hseen.
  - by rewrite app_nil_r.
  - cbn [unique_loop]. cbn [map] in Hnd. apply NoDup_cons in Hnd as [Hr Hnd].
    rewrite bool_decide_true by (apply Hseen; by left).
    rewrite IH; [by rewrite <- app_assoc | done |].
    intros a Ha [Hin | Heq%elem_of_singleton]%elem_of_union.
    + apply (Hseen a); [by right | done].
    + apply Hr. apply list_elem_of_In, in_map_iff. by exists a.
Qed.

Lemma NoDup_map_filter {A B : Type} (f : A -> B) (p : A -> bool)
    (l : list A) :
  NoDup (map f l) -> NoDup (map f (List.filter p l)).
Proof.
  induction l as [|x l IH]; [done |].
  cbn [map List.filter]. intros [Hx Hl]%NoDup_cons.
  destruct (p x); [| by apply IH].
  cbn [map]. apply NoDup_cons. split; [| by apply IH].
  intros Hin. apply Hx.
  apply list_elem_of_In, in_map_iff in Hin as (y & Hy & Hin).
  apply list_elem_of_In, in_map_iff. exists y. split; [done |].
  by apply filter_In in Hin as [? _].
Qed.

Lemma get_fallback_results_titles (q : QueryInfo) :
  NoDup (map title (get_fallback_results q)).
Proof.
  rewrite get_fallback_results_filter.
  destruct (List.filter _ fallback_data) as [|kd l] eqn:E.
  - apply NoDup_singleton.
  - rewrite <- E, map_map. apply NoDup_map_filter.
    apply (bool_decide_unpack _). by vm_compute.
Qed.

Lemma get_fallback_results_length (q : QueryInfo) :
  (1 <= length (get_fallback_results q) <= 7)%nat.
Proof.
  rewrite get_fallback_results_filter.
  pose proof (List.filter_length_le
                (fun kd => code_key_matches (fst kd) q) fallback_data) as H.
  destruct (List.filter _ fallback_data) as [|kd l]; [simpl; lia |].
  rewrite length_map. simpl in *. lia.
Qed.

Lemma get_fallback_results_constant (q : QueryInfo) :
  exists c, Forall (fun a => relevance a = c) (get_fallback_results q).
Proof.
  rewrite get_fallback_results_filter.
  destruct (List.filter _ fallback_data) as [|kd l].
  - exists 2. by repeat constructor.
  - exists 3. apply fallback_relevance.
Qed.

Lemma nothing_scraped_nothing_stored (q : QueryInfo) (l : list Scraper) :
  flat_map (contribution q) l = [] ->
  List.filter (fun sr => nonempty (snd sr)) (flat_map (stored q) l) = [].
Proof.
  induction l as [|s l IH]; [done |].
  cbn [flat_map]. intros [Hs Hl]%app_eq_nil.
  rewrite List.filter_app, (IH Hl), app_nil_r.
  unfold stored. unfold contribution in Hs.
  destruct (func s q) as [r|]; [| done]. simpl in Hs. by subst r.
Qed.

(** X7.  When every scraper that was called returned the empty list or
    raised, the results are exactly the articles of the knowledge base for
    the query, in table order and none dropped, [total_found] is their
    number, and "Static Knowledge" is the only source with results. *)
Theorem static_knowledge_response
    (self : SpaceInfoScraper) (query : string) (q : QueryInfo) :
  process_nlp self query = Some q ->
  scraped self q = [] ->
  let r := get_space_info self query in
  results r = get_fallback_results q /\
  total_found r = length (get_fallback_results q) /\
  exists si,
    sources_info r = Some si /\
    sources_with_results si = ["Static Knowledge"] /\
    result_counts si =
      [("Static Knowledge", length (get_fallback_results q))].
Proof.
  intros Hq Hnone r. subst r.
  rewrite (get_space_info_analyzed self query q Hq).
  destruct (aggregate_results self q) as [-> ->].
  destruct (aggregate_gathered self q) as [-> Hsrc].
  rewrite Hnone in *.
  assert (Hu : unique_by_title (get_fallback_results q) =
               get_fallback_results q).
  { unfold unique_by_title.
    destruct (get_fallback_results_constant q) as [c Hc].
    rewrite (sorted_by_relevance_constant c _ Hc).
    rewrite unique_loop_distinct;
      [reflexivity | apply get_fallback_results_titles
       | intros a _; apply not_elem_of_empty]. }
  rewrite Hu. pose proof (get_fallback_results_length q) as Hlen.
  split; [unfold top10; apply take_ge; lia |]. split; [done |].
  eexists. split; [apply aggregate_sources_info |].
  unfold make_sources_info. cbn [sources_with_results result_counts].
  rewrite Hsrc, List.filter_app.
  rewrite (nothing_scraped_nothing_stored q _ Hnone). cbn [app].
  destruct (get_fallback_results q) as [|a l]; [simpl in Hlen; lia |].
  by split.
Qed.

Lemma static_knowledge_response_witness :
  process_nlp offline_scraper "mars" = Some mars_query /\
  scraped offline_scraper mars_query = [] /\
  map title (results (get_space_info offline_scraper "mars")) =
    ["Mars - The Red Planet"] /\
  total_found (get_space_info offline_scraper "mars") = 1%nat.
Proof.
  destruct (static_knowledge_response offline_scraper "mars" mars_query
              eq_refl eq_refl) as (Hr & Ht & _).
  split; [reflexivity |]. split; [reflexivity |].
  split; [by rewrite Hr | by rewrite Ht].
Defined.

(** ** The articles of the knowledge base *)

Lemma startswith_refl (s : string) : PyStr.startswith s s = true.
Proof.
  induction s as [|a s IH]; [done |]. simpl. by rewrite Ascii.eqb_refl.
Qed.

Lemma contains_refl (s : string) : PyStr.contains s s = true.
Proof. destruct s; simpl; [done |]. by rewrite Ascii.eqb_refl, startswith_refl. Qed.

Lemma get_fallback_results_In (q : QueryInfo) (key : string)
    (data : FallbackData) :
  In (key, data) fallback_data -> code_key_matches key q = true ->
  In (fallback_article data) (get_fallback_results q).
Proof.
  intros Hin Hm. rewrite get_fallback_results_filter.
  assert (Hf : In (key, data)
                 (List.filter (fun kd => code_key_matches (fst kd) q)
                    fallback_data)) by (apply filter_In; by split).
  destruct (List.filter _ fallback_data) as [|kd l]; [done |].
  by apply (in_map (fun kd => fallback_article (snd kd))) in Hf.
Qed.

(** X8.  Every article the knowledge base returns has the source "Static
    Knowledge", a title that is not empty, an https link and relevance 3
    or 2; there are between one and seven of them and no two have the same
    title. *)
Theorem get_fallback_results_well_formed (q : QueryInfo) :
  Forall (fun a =>
            source a = "Static Knowledge" /\ title a <> "" /\
            PyStr.startswith "https://" (link a) = true /\
            (relevance a = 3 \/ relevance a = 2))
         (get_fallback_results q) /\
  NoDup (map title (get_fallback_results q)) /\
  (1 <= length (get_fallback_results q) <= 7)%nat.
Proof.
  split; [| split; [apply get_fallback_results_titles
                   | apply get_fallback_results_length]].
  rewrite get_fallback_results_filter.
  destruct (List.filter _ fallback_data) as [|kd l] eqn:E.
  - by repeat constructor.
  - rewrite <- E. clear E. apply List.Forall_forall.
    intros a (kd' & <- & Hin%filter_In)%in_map_iff.
    destruct Hin as [Hin _].
    assert (Hall : Forall (fun kd =>
              source (fallback_article (snd kd)) = "Static Knowledge" /\
              title (fallback_article (snd kd)) <> "" /\
              PyStr.startswith "https://" (link (fallback_article (snd kd)))
                = true /\
              (relevance (fallback_article (snd kd)) = 3 \/
               relevance (fallback_article (snd kd)) = 2)) fallback_data)
      by (repeat constructor; discriminate).
    rewrite List.Forall_forall in Hall. by apply Hall.
Qed.

(** X9.  A topic of the knowledge base is returned whenever the query
    names it: when the key occurs in the lowered raw query, or is the
    intent, or is one of the keywords. *)
Theorem get_fallback_results_named_topic
    (q : QueryInfo) (key : string) (data : FallbackData) :
  In (key, data) fallback_data ->
  PyStr.contains key (PyStr.lower (original_query q)) = true \/
  intent q = key \/ In key (keywords q) ->
  In (fallback_article data) (get_fallback_results q).
Proof.
  intros Hin Hnamed. apply (get_fallback_results_In q key data Hin).
  unfold code_key_matches, key_matches.
  destruct Hnamed as [-> | [-> | Hk]]; [done | |].
  - by rewrite contains_refl, orb_true_r.
  - apply orb_true_iff. right. apply existsb_exists.
    exists key. split; [done | apply contains_refl].
Qed.

Lemma get_fallback_results_named_topic_witness :
  exists data,
    In ("black hole", data) fallback_data /\
    data_title data = "Black Holes" /\
    In (fallback_article data) (get_fallback_results black_hole_query).
Proof.
  eexists. split; [do 2 right; left; reflexivity |].
  split; [reflexivity |].
  apply (get_fallback_results_named_topic black_hole_query "black hole").
  - do 2 right. left. reflexivity.
  - left. reflexivity.
Defined.

(** ** The answers of the HTTP handler *)

Section Strip.
Import PyStr.






End Strip.


(** ** Requests with retries *)

Lemma retry_loop_spec (requests_get : nat -> option HttpResponse)
    (left retries : nat) :
  let res := fst (retry_loop requests_get left retries) in
  let n := snd (retry_loop requests_get left retries) in
  match res with
  | Some response =>
      (retries < n <= retries + left)%nat /\
      requests_get (n - 1)%nat = Some response /\
      possible_blocking response = false /\
      forall i, (retries <= i < n - 1)%nat -> attempt_fails (requests_get i)
  | None =>
      n = (retries + left)%nat /\
      forall i, (retries <= i < n)%nat -> attempt_fails (requests_get i)
  end.
Proof.
  revert retries; induction left as [|left IH]; intros retries.
  - cbn. split; [lia | intros; lia].
  - cbn [retry_loop].
    assert (Hstep : attempt_fails (requests_get retries) ->
      match fst (retry_loop requests_get left (S retries)) with
      | Some response =>
          (retries < snd (retry_loop requests_get left (S retries))
           <= retries + S left)%nat /\
          requests_get (snd (retry_loop requests_get left (S retries)) - 1)%nat
            = Some response /\
          possible_blocking response = false /\
          forall i,
            (retries <= i
             < snd (retry_loop requests_get left (S retries)) - 1)%nat ->
            attempt_fails (requests_get i)
      | None =>
          snd (retry_loop requests_get left (S retries))
            = (retries + S left)%nat /\
          forall i,
            (retries <= i
             < snd (retry_loop requests_get left (S retries)))%nat ->
            attempt_fails (requests_get i)
      end).
    { intros Hfail. specialize (IH (S retries)). cbn zeta in IH.
      destruct (fst (retry_loop requests_get left (S retries))).
      - destruct IH as (Hn & Hget & Hok & Hbefore).
        split; [lia |]. split; [done |]. split; [done |].
        intros i Hi. destruct (decide (i = retries)) as [-> | Hne];
          [done | apply Hbefore; lia].
      - destruct IH as (Hn & Hbefore). split; [lia |].
        intros i Hi. destruct (decide (i = retries)) as [-> | Hne];
          [done | apply Hbefore; lia]. }
    destruct (requests_get retries) as [response|] eqn:Hget.
    + destruct (possible_blocking response) eqn:Hb.
      * by apply Hstep.
      * cbn [fst snd]. split; [lia |].
        replace (S retries - 1)%nat with retries by lia.
        split; [exact Hget |]. split; [exact Hb | intros; lia].
    + by apply Hstep.
Qed.

(** X11.  [get_with_retry] makes at most [max_retries] requests, none
    when [max_retries] is not positive.  A response it returns is the
    answer to its last request and is not a suspected block (no "captcha"
    in it, and not a 200 with fewer than 1000 characters), whatever its
    status; every request before it raised or was a suspected block.  It
    returns [None] exactly after [max_retries] such requests. *)
Theorem get_with_retry_bounded
    (requests_get : nat -> option HttpResponse) (max_retries : Z) :
  let res := fst (get_with_retry requests_get max_retries) in
  let n := snd (get_with_retry requests_get max_retries) in
  (Z.of_nat n <= Z.max 0 max_retries) /\
  match res with
  | Some response =>
      (1 <= n)%nat /\
      requests_get (n - 1)%nat = Some response /\
      possible_blocking response = false /\
      forall i, (i < n - 1)%nat -> attempt_fails (requests_get i)
  | None =>
      Z.of_nat n = Z.max 0 max_retries /\
      forall i, (i < n)%nat -> attempt_fails (requests_get i)
  end.
Proof.
  intros res n. subst res n. unfold get_with_retry.
  pose proof (retry_loop_spec requests_get (Z.to_nat max_retries) 0) as H.
  cbn zeta in H.
  destruct (fst (retry_loop requests_get (Z.to_nat max_retries) 0)).
  - destruct H as (Hn & Hget & Hok & Hbefore).
    split; [lia |]. split; [lia |]. split; [done |]. split; [done |].
    intros i Hi. apply Hbefore. lia.
  - destruct H as (Hn & Hbefore). split; [lia |]. split; [lia |].
    intros i Hi. apply Hbefore. lia.
Qed.

(** After a CAPTCHA page and an exception the third answer, a 404 page,
    is returned as it is. *)
Example get_with_retry_flaky_server :
  get_with_retry flaky_server 3 =
    (Some {| status_code := 404; text := "Not Found" |}, 3%nat) /\
  get_with_retry flaky_server 2 = (None, 2%nat) /\
  get_with_retry flaky_server (-1) = (None, 0%nat).
Proof. vm_compute. by repeat split. Qed.

(** ** Request headers *)

Section Dict.
Context {V : Type}.

Lemma dict_get_set (d : list (string * V)) (k : string) (v : V) :
  dict_get (dict_set d k v) k = Some v.
Proof.
  induction d as [|[k' v'] d IH]; simpl.
  - by rewrite String.eqb_refl.
  - destruct (String.eqb k' k) eqn:E; simpl; by rewrite E.
Qed.

Lemma dict_get_set_other (d : list (string * V)) (k k' : string) (v : V) :
  k' <> k -> dict_get (dict_set d k v) k' = dict_get d k'.
Proof.
  intros Hne. induction d as [|[k0 v0] d IH]; simpl.
  - destruct (String.eqb_spec k k'); [congruence | done].
  - destruct (String.eqb_spec k0 k) as [-> | Hk0]; simpl.
    + destruct (String.eqb_spec k k'); [congruence | done].
    + destruct (String.eqb k0 k'); [done | exact IH].
Qed.

End Dict.

Lemma random_choice_In (draw : nat) : In (random_choice user_agents draw) user_agents.
Proof.
  unfold random_choice. apply nth_In.
  apply Nat.mod_upper_bound. discriminate.
Qed.

(** X12.  The headers of a request are the base headers with the
    User-Agent replaced by one of the five of the pool; no other base
    header is changed or dropped, and a Referer is added exactly for the
    sites "google", "nasa" and "wikipedia". *)
Theorem get_headers_keeps_base (draw : nat) (site : option string) :
  let hs := get_headers draw site in
  (exists ua, dict_get hs "User-Agent" = Some ua /\ In ua user_agents) /\
  (forall k, k <> "User-Agent" -> k <> "Referer" ->
             dict_get hs k = dict_get headers k) /\
  (is_Some (dict_get hs "Referer") <->
   site = Some "google" \/ site = Some "nasa" \/ site = Some "wikipedia").
Proof.
  intros hs. subst hs. unfold get_headers.
  set (hs := dict_set headers "User-Agent" (random_choice user_agents draw)).
  assert (Hua : dict_get hs "User-Agent" =
                Some (random_choice user_agents draw))
    by apply dict_get_set.
  assert (Hbase : forall k, k <> "User-Agent" ->
                            dict_get hs k = dict_get headers k)
    by (intros; by apply dict_get_set_other).
  assert (Hnoref : dict_get hs "Referer" = None)
    by (rewrite Hbase; [reflexivity | discriminate]).
  destruct site as [site|].
  2:{ split; [eauto using random_choice_In |]. split; [auto |].
      rewrite Hnoref. split; [by intros [? ?] | by intros [?|[?|?]]]. }
  destruct (String.eqb_spec site "google") as [-> | Hg];
    [| destruct (String.eqb_spec site "nasa") as [-> | Hn];
       [| destruct (String.eqb_spec site "wikipedia") as [-> | Hw]]].
  1-3: split;
    [exists (random_choice user_agents draw);
     split; [| apply random_choice_In];
     rewrite dict_get_set_other by discriminate; exact Hua |];
    split;
    [intros k Hk1 Hk2; rewrite dict_get_set_other by done; by apply Hbase |];
    rewrite dict_get_set; split; [auto | by eexists].
  split; [eauto using random_choice_In |]. split; [auto |].
  rewrite Hnoref. split; [by intros [? ?] |].
  intros [[= ?] | [[= ?] | [= ?]]]; congruence.
Qed.

(** ** More on the relevance score *)

Section Append.
Import PyStr.

Lemma app_cons (c : ascii) (a b : string) :
  String c a +:+ b = String c (a +:+ b).
Proof. reflexivity. Qed.

Lemma app_assoc_string (a b c : string) :
  (a +:+ b) +:+ c = a +:+ (b +:+ c).
Proof.
  induction a as [|x a IH]; [reflexivity |].
  by rewrite !app_cons, IH.
Qed.

Lemma lower_app (a b : string) : lower (a +:+ b) = lower a +:+ lower b.
Proof.
  induction a as [|x a IH]; [reflexivity |].
  rewrite app_cons. cbn [lower]. by rewrite app_cons, IH.
Qed.

Lemma lower_char_idemp (c : ascii) : lower_char (lower_char c) = lower_char c.
Proof. by destruct c as [[] [] [] [] [] [] [] []]. Qed.

Lemma lower_idemp (s : string) : lower (lower s) = lower s.
Proof.
  induction s as [|c s IH]; [done |].
  cbn [lower]. by rewrite lower_char_idemp, IH.
Qed.

(** What occurs in a text occurs in every text around it. *)
Lemma contains_extend (k pre s post : string) :
  contains k s = true -> contains k (pre +:+ s +:+ post) = true.
Proof.
  rewrite !PyStrFacts.contains_spec. intros (p1 & p2 & ->).
  exists (pre +:+ p1), (p2 +:+ post). by rewrite !app_assoc_string.
Qed.

End Append.


Lemma filter_length_perm {A : Type} (p : A -> bool) (l l' : list A) :
  Permutation l l' ->
  length (List.filter p l) = length (List.filter p l').
Proof.
  induction 1 as [|x l l' _ IH | x y l | l1 l2 l3 _ IH1 _ IH2];
    cbn [List.filter].
  - done.
  - destruct (p x); simpl; by rewrite IH.
  - by destruct (p x), (p y).
  - by rewrite IH1.
Qed.

(** X13.  The score does not depend on the order of the keywords. *)
Theorem calculate_relevance_keyword_order
    (text : string) (kws kws' : list string) :
  Permutation kws kws' ->
  calculate_relevance text kws = calculate_relevance text kws'.
Proof.
  intros Hp. rewrite !calculate_relevance_count.
  by rewrite (filter_length_perm _ kws kws' Hp).
Qed.

Lemma calculate_relevance_keyword_order_witness :
  Permutation ["mars"; "nasa"; "venus"] ["venus"; "mars"; "nasa"] /\
  calculate_relevance "NASA's Mars rover" ["mars"; "nasa"; "venus"] =
  calculate_relevance "NASA's Mars rover" ["venus"; "mars"; "nasa"].
Proof.
  assert (Hp : Permutation ["mars"; "nasa"; "venus"]
                           ["venus"; "mars"; "nasa"]).
  { symmetry.
    apply (@Permutation_cons_app _ ["mars"; "nasa"] ["mars"; "nasa"] []
             "venus").
    rewrite app_nil_r. apply Permutation_refl. }
  split; [exact Hp |].
  apply (calculate_relevance_keyword_order "NASA's Mars rover" _ _ Hp).
Defined.


(** ** What three scrapers return *)

Section AdapterFacts.
Variable q : QueryInfo.

Lemma scored_intro (t d l s : string) :
  scored q {| title := t; link := l; description := d; source := s;
            relevance := calculate_relevance (t +:+ " " +:+ d) (keywords q) |}.
Proof. split; [done | apply calculate_relevance_bounds]. Qed.

Lemma flat_map_at_most_one {A B : Type} (f : A -> list B) (l : list A) :
  (forall x, (length (f x) <= 1)%nat) ->
  (length (flat_map f l) <= length l)%nat.
Proof.
  intros Hf. induction l as [|x l IH]; [done |].
  cbn [flat_map]. rewrite length_app. specialize (Hf x). simpl. lia.
Qed.

Lemma flat_map_Forall {A B : Type} (P : B -> Prop) (f : A -> list B)
    (l : list A) :
  (forall x, Forall P (f x)) -> Forall P (flat_map f l).
Proof.
  intros Hf. induction l as [|x l IH]; [constructor |].
  cbn [flat_map]. apply Forall_app. by split.
Qed.

Lemma sorted_by_relevance_Forall (P : Article -> Prop) (l : list Article) :
  Forall P l -> Forall P (sorted_by_relevance l).
Proof.
  rewrite !List.Forall_forall. intros H a Ha.
  by apply H, sorted_by_relevance_In.
Qed.

Lemma sorted_by_relevance_length (l : list Article) :
  length (sorted_by_relevance l) = length l.
Proof. apply Permutation_length, sorted_by_relevance_perm. Qed.

Lemma take_at_most {A : Type} (n : nat) (l : list A) :
  (length (take n l) <= n)%nat.
Proof. rewrite length_take. lia. Qed.


Lemma universe_today_article_results (article : Adapters.BlockElem) :
  (length (Adapters.universe_today_article (keywords q) article) <= 1)%nat /\
  Forall (fun a =>
            source a = "Universe Today" /\
            PyStr.startswith "http" (link a) = true /\ scored q a)
         (Adapters.universe_today_article (keywords q) article).
Proof.
  unfold Adapters.universe_today_article.
  destruct (Adapters.block_heading article) as [t|];
    [| split; [simpl; lia | constructor]].
  destruct (Adapters.block_a article) as [a|];
    [| split; [simpl; lia | constructor]].
  cbn zeta. split; [simpl; lia |].
  constructor; [| constructor].
  cbn [source link]. split; [done |]. split; [| apply scored_intro].
  by destruct (PyStr.startswith "http" (default "" (Adapters.href a))) eqn:E.
Qed.

Lemma nasa_homepage_block_results (block : Adapters.BlockElem) :
  (length (Adapters.nasa_homepage_block (keywords q) block) <= 1)%nat /\
  Forall (fun a =>
            source a = "NASA" /\
            PyStr.startswith "http" (link a) = true /\ scored q a)
         (Adapters.nasa_homepage_block (keywords q) block).
Proof.
  unfold Adapters.nasa_homepage_block.
  destruct (Adapters.block_heading block) as [t|];
    [| split; [simpl; lia | constructor]].
  cbn zeta. split; [simpl; lia |].
  constructor; [| constructor].
  cbn [source link]. split; [done |]. split; [| apply scored_intro].
  destruct (Adapters.block_a block) as [a|]; [| reflexivity].
  destruct (PyStr.startswith "/" (default "" (Adapters.href a)));
    [reflexivity |].
  by destruct (PyStr.startswith "http" (default "" (Adapters.href a))) eqn:E.
Qed.

End AdapterFacts.


(** X16.  Whatever the page holds, [scrape_universe_today] returns at
    most five results, in non-increasing order of relevance; each has the
    source "Universe Today", a link that starts with "http", and as
    relevance the score of its title and description.  It returns the
    empty list when the request raises and when the status is not 200. *)
Theorem scrape_universe_today_results
    (page : option Adapters.UniverseTodayPage) (q : QueryInfo) :
  let l := Adapters.scrape_universe_today page q in
  (length l <= 5)%nat /\
  relevance_descending l /\
  Forall (fun a =>
            source a = "Universe Today" /\
            PyStr.startswith "http" (link a) = true /\ scored q a) l /\
  match page with
  | None => l = []
  | Some p => Adapters.ut_status p <> 200 -> l = []
  end.
Proof.
  intros l. subst l. unfold Adapters.scrape_universe_today.
  destruct page as [page|];
    [| split; [simpl; lia | split; [constructor | by split]]].
  destruct (Z.eqb_spec (Adapters.ut_status page) 200) as [Heq | Hne];
    cbn [negb];
    [| split; [simpl; lia | split; [constructor | by split]]].
  split; [| split; [apply sorted_by_relevance_descending
                   | split; [| by intros []]]].
  - rewrite sorted_by_relevance_length.
    etrans; [apply flat_map_at_most_one; intros a;
             apply (universe_today_article_results q a) |].
    apply take_at_most.
  - apply sorted_by_relevance_Forall, flat_map_Forall.
    intros a. apply (universe_today_article_results q a).
Qed.

(** X17.  Whatever the page holds, [scrape_nasa_homepage] returns at most
    three results, in non-increasing order of relevance; each has the
    source "NASA" (the label of the NASA search scraper, not "NASA
    Homepage"), a link that starts with "http", and as relevance the score
    of its title and description.  It returns the empty list when the
    request raises and when the status is not 200. *)
Theorem scrape_nasa_homepage_results
    (page : option Adapters.NasaHomepage) (q : QueryInfo) :
  let l := Adapters.scrape_nasa_homepage page q in
  (length l <= 3)%nat /\
  relevance_descending l /\
  Forall (fun a =>
            source a = "NASA" /\
            PyStr.startswith "http" (link a) = true /\ scored q a) l /\
  match page with
  | None => l = []
  | Some p => Adapters.nasa_status p <> 200 -> l = []
  end.
Proof.
  intros l. subst l. unfold Adapters.scrape_nasa_homepage.
  destruct page as [page|];
    [| split; [simpl; lia | split; [constructor | by split]]].
  destruct (Z.eqb_spec (Adapters.nasa_status page) 200) as [Heq | Hne];
    cbn [negb];
    [| split; [simpl; lia | split; [constructor | by split]]].
  split; [| split; [apply sorted_by_relevance_descending
                   | split; [| by intros []]]].
  - rewrite sorted_by_relevance_length.
    etrans; [apply flat_map_at_most_one; intros b;
             apply (nasa_homepage_block_results q b) |].
    apply take_at_most.
  - apply sorted_by_relevance_Forall, flat_map_Forall.
    intros b. apply (nasa_homepage_block_results q b).
Qed.


(** ** Tokens and blank queries *)

Section Tokens.
Import PyStr.

Lemma all_chars_app (p : ascii -> bool) (a b : string) :
  all_chars p (a +:+ b) = all_chars p a && all_chars p b.
Proof.
  induction a as [|c a IH]; [done |].
  rewrite app_cons. cbn [all_chars]. by rewrite IH, andb_assoc.
Qed.

Lemma rev_app_app (s acc : string) :
  String.rev_app s acc = String.rev_app s "" +:+ acc.
Proof.
  revert acc; induction s as [|c s IH]; intros acc; [done |].
  cbn [String.rev_app]. rewrite (IH (String c acc)), (IH (String c "")).
  by rewrite app_assoc_string.
Qed.

Lemma rev_cons (c : ascii) (s : string) :
  String.rev (String c s) = String.rev s +:+ String c "".
Proof. unfold String.rev. cbn [String.rev_app]. apply rev_app_app. Qed.

Lemma occurs_in_refl_app (t s : string) : occurs_in t (t +:+ s).
Proof. by exists "", s. Qed.

Lemma occurs_in_later (t pre s : string) :
  occurs_in t s -> occurs_in t (pre +:+ s).
Proof.
  intros (p1 & p2 & ->). exists (pre +:+ p1), p2.
  by rewrite app_assoc_string.
Qed.

(** Every token of [findall_word] is a piece of the text. *)
Lemma findall_word_go_occurs (s cur t : string) :
  In t (findall_word_go cur s) -> occurs_in t (String.rev cur +:+ s).
Proof.
  revert cur; induction s as [|c s IH]; intros cur; cbn [findall_word_go].
  - destruct cur; [intros [] |]. intros [<- | []]. apply occurs_in_refl_app.
  - destruct (is_word_char c).
    + intros Ht%IH. rewrite rev_cons, app_assoc_string in Ht. exact Ht.
    + assert (Hlater : In t (findall_word_go "" s) ->
                       occurs_in t (String.rev cur +:+ String c s)).
      { intros Ht%IH. apply occurs_in_later.
        apply (occurs_in_later t (String c "") s). exact Ht. }
      destruct cur as [|c' cur]; [exact Hlater |].
      intros [<- | Ht]; [apply occurs_in_refl_app | by apply Hlater].
Qed.

Lemma findall_word_occurs (s t : string) :
  In t (findall_word s) -> contains t s = true.
Proof.
  intros Ht%findall_word_go_occurs. by apply PyStrFacts.contains_spec.
Qed.

Lemma space_is_no_word_char (c : ascii) :
  is_space_char c = true -> is_word_char c = false /\ lower_char c = c.
Proof. by destruct c as [[] [] [] [] [] [] [] []]. Qed.

Lemma lower_whitespace (s : string) :
  all_chars is_space_char s = true -> lower s = s.
Proof.
  induction s as [|c s IH]; [done |].
  cbn [all_chars lower]. intros [Hc Hs]%andb_true_iff.
  destruct (space_is_no_word_char c Hc) as [_ ->]. by rewrite IH.
Qed.

Lemma findall_word_whitespace (s : string) :
  all_chars is_space_char s = true -> findall_word s = [].
Proof.
  unfold findall_word. induction s as [|c s IH]; [done |].
  cbn [all_chars findall_word_go]. intros [Hc Hs]%andb_true_iff.
  destruct (space_is_no_word_char c Hc) as [-> _]. by apply IH.
Qed.

(** In a text of white space nothing occurs that has another character. *)
Lemma contains_whitespace (k s : string) :
  all_chars is_space_char s = true -> all_chars is_space_char k = false ->
  contains k s = false.
Proof.
  intros Hs Hk. destruct (contains k s) eqn:E; [| done].
  apply PyStrFacts.contains_spec in E as (p1 & p2 & ->).
  rewrite !all_chars_app, Hk in Hs. by destruct (all_chars is_space_char p1).
Qed.

End Tokens.

(** X18.  Without NLTK's tokenizer the tokens are the runs of word
    characters of the lowered query, so every token that [process_nlp]
    keeps before lemmatizing is alphabetic, is no stop word and occurs in
    the lowered query. *)
Theorem filtered_tokens_from_query (self : SpaceInfoScraper) (query : string) :
  word_tokenize self (PyStr.lower query) = None ->
  Forall (fun w =>
            PyStr.isalpha w = true /\ (w ∉ stop_words self) /\
            PyStr.contains w (PyStr.lower query) = true)
         (filtered_tokens self query).
Proof.
  intros Hraise. unfold filtered_tokens, simple_tokenize. rewrite Hraise.
  rewrite lower_idemp. apply List.Forall_forall.
  intros w [Hw [Ha Hs]%andb_true_iff]%filter_In.
  split; [exact Ha |]. split; [by apply bool_decide_eq_true_1 in Hs |].
  by apply findall_word_occurs.
Qed.

Lemma filtered_tokens_from_query_witness :
  word_tokenize offline_scraper (PyStr.lower "Mars rover, 2 wheels!") = None /\
  filtered_tokens offline_scraper "Mars rover, 2 wheels!" =
    ["mars"; "rover"; "wheels"] /\
  Forall (fun w => PyStr.contains w (PyStr.lower "Mars rover, 2 wheels!") = true)
         (filtered_tokens offline_scraper "Mars rover, 2 wheels!").
Proof.
  split; [reflexivity |]. split; [reflexivity |].
  eapply Forall_impl;
    [exact (filtered_tokens_from_query offline_scraper
              "Mars rover, 2 wheels!" eq_refl) |].
  by intros w (_ & _ & Hw).
Defined.

Lemma nothing_matches_generic (q : QueryInfo) :
  Forall (fun kd => code_key_matches (fst kd) q = false) fallback_data ->
  get_fallback_results q = [general_space_article].
Proof.
  intros Hall. rewrite get_fallback_results_filter.
  assert (Hnil : List.filter (fun kd => code_key_matches (fst kd) q)
                   fallback_data = []).
  { induction Hall as [|kd l Hkd _ IH]; [done |].
    cbn [List.filter]. by rewrite Hkd. }
  by rewrite Hnil.
Qed.

(** X19.  A query that is empty or white space only, on which the
    tokenizer raises or finds no token, is analyzed as intent "general"
    with no keyword, and the knowledge base answers it with the one generic
    "Space Exploration" article. *)
Theorem blank_query_analysis (self : SpaceInfoScraper) (query : string) :
  whitespace_only query = true ->
  word_tokenize self (PyStr.lower query) = None \/
  word_tokenize self (PyStr.lower query) = Some [] ->
  process_nlp self query = Some (blank_query_info query) /\
  get_fallback_results (blank_query_info query) = [general_space_article].
Proof.
  intros Hws Htok. split.
  - assert (Hnone : filtered_tokens self query = []).
    { unfold filtered_tokens, simple_tokenize.
      destruct Htok as [-> | ->]; [| done].
      rewrite lower_idemp, (lower_whitespace query Hws).
      by rewrite (findall_word_whitespace query Hws). }
    unfold process_nlp. rewrite Hnone. reflexivity.
  - apply nothing_matches_generic.
    assert (Hlow : PyStr.all_chars PyStr.is_space_char
                     (PyStr.lower (original_query (blank_query_info query)))
                   = true) by (cbn; by rewrite (lower_whitespace query Hws)).
    unfold code_key_matches, key_matches.
    repeat constructor; cbn [fst];
      (rewrite (contains_whitespace _ _ Hlow); reflexivity).
Qed.

Lemma blank_query_analysis_witness :
  whitespace_only "   " = true /\
  process_nlp offline_scraper "   " = Some (blank_query_info "   ") /\
  get_fallback_results (blank_query_info "   ") = [general_space_article].
Proof.
  split; [reflexivity |].
  apply (blank_query_analysis offline_scraper "   " eq_refl).
  left. reflexivity.
Defined.


(** ** What two scrapers ask for *)

(** X20.  The search terms of [scrape_google] begin with the raw query
    and always hold, in some case, one of the words "space", "nasa",
    "astronomy", "cosmos" and "universe". *)
Theorem google_search_terms_in_context (q : QueryInfo) :
  PyStr.startswith (original_query q) (google_search_terms q) = true /\
  existsb (fun term =>
             PyStr.contains term (PyStr.lower (google_search_terms q)))
          ["space"; "nasa"; "astronomy"; "cosmos"; "universe"] = true.
Proof.
  unfold google_search_terms. cbn zeta.
  destruct (existsb _ _) eqn:E; cbn [negb].
  - split; [apply startswith_refl | exact E].
  - split.
    + apply PyStrFacts.startswith_spec. by eexists.
    + apply existsb_exists. exists "space". split; [by left |].
      rewrite lower_app.
      change (PyStr.lower " space astronomy")
        with (" " +:+ "space" +:+ " astronomy").
      rewrite <- app_assoc_string.
      by apply contains_extend.
Qed.

Section TopicChoice.
Variable kws : list string.

Lemma topic_loop_choice (items : list (string * string)) (st : TopicChoice) :
  let st' := topic_loop items kws st in
  (st' = st /\
   forall t p, In (t, p) items -> (topic_matches kws t <= max_matches st)%nat)
  \/
  exists pre t p post,
    items = pre ++ (t, p) :: post /\
    st' = {| page_url := base_url +:+ p;
             max_matches := topic_matches kws t;
             chosen_topic := t |} /\
    (max_matches st < topic_matches kws t)%nat /\
    (forall t' p', In (t', p') pre ->
                   (topic_matches kws t' < topic_matches kws t)%nat) /\
    (forall t' p', In (t', p') post ->
                   (topic_matches kws t' <= topic_matches kws t)%nat).
Proof.
  revert st; induction items as [|[t p] items IH]; intros st; cbn zeta.
  - left. split; [done | intros ? ? []].
  - cbn [topic_loop].
    destruct (Nat.ltb_spec (max_matches st) (topic_matches kws t))
      as [Hlt | Hge].
    + right.
      destruct (IH {| page_url := base_url +:+ p;
                      max_matches := topic_matches kws t;
                      chosen_topic := t |})
        as [[-> Hall] | (pre & t2 & p2 & post & -> & -> & Hlt2 & Hpre & Hpost)].
      * exists [], t, p, items. split; [done |]. split; [done |].
        split; [done |]. split; [intros ? ? [] | exact Hall].
      * cbn [max_matches] in Hlt2.
        exists ((t, p) :: pre), t2, p2, post.
        split; [done |]. split; [done |]. split; [lia |].
        split; [| exact Hpost].
        intros t' p' [[= <- <-] | Hin]; [done | by eapply Hpre].
    + destruct (IH st)
        as [[-> Hall] | (pre & t2 & p2 & post & -> & -> & Hlt2 & Hpre & Hpost)].
      * left. split; [done |].
        intros t' p' [[= <- <-] | Hin]; [done | by eapply Hall].
      * right. exists ((t, p) :: pre), t2, p2, post.
        split; [done |]. split; [done |]. split; [done |].
        split; [| exact Hpost].
        intros t' p' [[= <- <-] | Hin]; [lia | by eapply Hpre].
Qed.

End TopicChoice.

(** X21.  The page [scrape_space_facts] asks for belongs to the topic of
    [topic_urls] with the most keyword matches, the first such topic in
    table order when some keyword matches; when no keyword is a word of a
    topic, it is the home page, under the topic "space". *)
Theorem space_facts_topic_best (q : QueryInfo) :
  let st := space_facts_topic q in
  (exists path,
     In (chosen_topic st, path) topic_urls /\
     page_url st = base_url +:+ path) /\
  max_matches st = topic_matches (keywords q) (chosen_topic st) /\
  (forall t p, In (t, p) topic_urls ->
     (topic_matches (keywords q) t <= max_matches st)%nat) /\
  ((max_matches st = 0%nat /\ chosen_topic st = "space" /\
    page_url st = base_url) \/
   exists pre path post,
     topic_urls = pre ++ (chosen_topic st, path) :: post /\
     forall t p, In (t, p) pre ->
       (topic_matches (keywords q) t < max_matches st)%nat).
Proof.
  intros st. subst st. unfold space_facts_topic.
  destruct (topic_loop_choice (keywords q) topic_urls
              {| page_url := base_url; max_matches := 0;
                 chosen_topic := "space" |})
    as [[-> Hall] | (pre & t & p & post & Htab & -> & Hlt & Hpre & Hpost)];
    cbn [chosen_topic page_url max_matches] in *.
  - assert (Hspace : topic_matches (keywords q) "space" = 0%nat).
    { specialize (Hall "space" ""). 
      assert (In ("space", "") topic_urls) by (do 13 right; by left).
      specialize (Hall H). lia. }
    split; [exists ""; split; [do 13 right; by left | reflexivity] |].
    split; [by rewrite Hspace |]. split; [exact Hall |].
    left. by repeat split.
  - assert (Hin : In (t, p) topic_urls).
    { rewrite Htab. apply in_or_app. right. by left. }
    split; [by exists p |]. split; [done |]. split.
    + intros t' p' Hin'. rewrite Htab in Hin'.
      apply in_app_or in Hin' as [Hin' | [[= <- <-] | Hin']].
      * specialize (Hpre _ _ Hin'). lia.
      * done.
      * by eapply Hpost.
    + right. by exists pre, p, post.
Qed.


(** ** What the truncation drops *)

Lemma descending_take_drop (l : list Article) (n : nat) (x y : Article) :
  relevance_descending l -> In x (take n l) -> In y (drop n l) ->
  relevance y <= relevance x.
Proof.
  intros Hs Hx Hy. rewrite <- (take_drop n l) in Hs.
  apply (StronglySorted_app_1_elem_of _ _ _ x y Hs);
    by apply list_elem_of_In.
Qed.

(** X22.  The truncation to ten results drops the least relevant titles:
    a gathered article whose title is not among the results is at most as
    relevant as every result. *)
Theorem truncation_drops_least_relevant
    (self : SpaceInfoScraper) (query : string) (r a : Article) :
  In r (results (get_space_info self query)) ->
  In a (gathered_results self query) ->
  (forall r', In r' (results (get_space_info self query)) ->
              title r' <> title a) ->
  relevance a <= relevance r.
Proof.
  destruct (process_nlp self query) as [q|] eqn:Hq.
  2:{ unfold gathered_results. rewrite Hq. by intros _ []. }
  rewrite (gathered_results_analyzed self query q Hq).
  rewrite (get_space_info_analyzed self query q Hq).
  destruct (aggregate_results self q) as [-> _].
  generalize (all_results (fst (aggregate self q))). unfold top10.
  intros all Hr Ha Hnew.
  destruct (unique_by_title_keeps_best all a Ha) as (kept & Hk & Ht & Hle & _).
  assert (Hdrop : In kept (drop 10 (unique_by_title all))).
  { rewrite <- (take_drop 10 (unique_by_title all)) in Hk.
    apply in_app_or in Hk as [Hk | Hk]; [| done].
    by destruct (Hnew kept Hk). }
  pose proof (descending_take_drop _ 10 r kept
                (unique_by_title_descending all) Hr Hdrop).
  lia.
Qed.

Lemma truncation_drops_least_relevant_witness :
  In (lettered 1) (results (get_space_info crowded_scraper "letters")) /\
  In (lettered 0) (gathered_results crowded_scraper "letters") /\
  ~ In (title (lettered 0))
       (map title (results (get_space_info crowded_scraper "letters"))) /\
  relevance (lettered 0) <= relevance (lettered 1).
Proof.
  assert (Hr : In (lettered 1)
                 (results (get_space_info crowded_scraper "letters")))
    by (vm_compute; do 9 right; by left).
  assert (Ha : In (lettered 0) (gathered_results crowded_scraper "letters"))
    by (vm_compute; by left).
  assert (Hnew : forall r',
            In r' (results (get_space_info crowded_scraper "letters")) ->
            title r' <> title (lettered 0)).
  { intros r' Hr'. vm_compute in Hr'.
    repeat (destruct Hr' as [<- | Hr']; [discriminate |]).
    destruct Hr'. }
  split; [exact Hr |]. split; [exact Ha |]. split.
  - intros (r' & Ht & Hr')%in_map_iff. exact (Hnew r' Hr' Ht).
  - exact (truncation_drops_least_relevant crowded_scraper "letters"
             (lettered 1) (lettered 0) Hr Ha Hnew).
Defined.
